(** * ArogoBhashini front end: the real-time consultation session

    A shallow embedding of the client-side consultation session of the
    ArogoBhashini web client, and the properties of its specification
    checked against it.

    - [JS]           the JavaScript values the handlers consume and produce
    - [VoiceCapture] [detectSilence], [startRecording], [stopRecording]
                     (components/ChatInterface/index.js)
    - [Chat]         the ChatInterface socket handlers, the message log and
                     the playback handle (components/ChatInterface/index.js)
    - [Prefs]        the readers and writers of the persisted preference blob
                     (ChatInterface, pages/ConsultationPage.js,
                     pages/ConsultationSummary.js, pages/UserDetailsForm.js)
    - [Api]          [WebSocketService.connect] and [speechApi.translateSpeech]
                     (utils/api.js)
    - [AudioControls] the player of one message bubble
                     (components/AudioControls/index.js)
    - [Bubble]       what MessageBubble and ConfidenceIndicator show of a log
                     entry (components/ChatInterface)
    - [ChatMore]     [handleWsMessage] and the speech-to-text upload of
                     ChatInterface
    - [Player]       AudioControls with its effect and all its handlers
    - [Requests]     the request builders of utils/api.js
    - [Consultation] the consultation slice and what ConsultationPage
                     renders from it (redux/slices/consultationSlice.js)

    Time is in milliseconds, as [Date.now()] returns it. *)

From Stdlib Require Import ZArith QArith Lia Ascii.
From stdpp Require Import gmap strings list fin_maps pretty.

Local Set Warnings "-register-all".
Local Open Scope Z_scope.

(* ===================================================================== *)
(** ** JavaScript values *)
(* ===================================================================== *)

Module JS.

(** The values that [JSON.parse] produces, plus [undefined].  An object is a
    finite map from property names to values.  Numbers are rationals: every
    number the modelled handlers compute with is a clock reading or a JSON
    literal, and none of them does arithmetic on a literal. *)
Inductive value :=
| Undefined
| Null
| Bool (b : bool)
| Num (q : Q)
| Str (s : string)
| Arr (xs : list value)
| Obj (m : gmap string value).

(** ToBoolean. *)
Definition truthy (v : value) : bool :=
  match v with
  | Undefined | Null => false
  | Bool b => b
  | Num q => negb (Qeq_bool q 0)
  | Str s => negb (String.eqb s "")
  | Arr _ | Obj _ => true
  end.

Definition nullish (v : value) : bool :=
  match v with
  | Undefined | Null => true
  | _ => false
  end.

(** [a || b], [a && b] and [a ?? b] on already evaluated operands (every
    right operand in the modelled code is free of effects). *)
Definition or (a b : value) : value := if truthy a then a else b.
Definition and (a b : value) : value := if truthy a then b else a.
Definition coalesce (a b : value) : value := if nullish a then b else a.

(** [o.k] for the property names the handlers read.  None of those names is
    defined on a built-in prototype, so a read on a primitive, an array or an
    object without the key yields [undefined]; a read on [null] or
    [undefined] throws a TypeError, which is [None]. *)
Definition get (k : string) (o : value) : option value :=
  match o with
  | Undefined | Null => None
  | Obj m => Some (default Undefined (m !! k))
  | _ => Some Undefined
  end.

(** [o?.k]. *)
Definition get_opt (k : string) (o : value) : value :=
  default Undefined (get k o).

(** [a === "s"] against a string literal. *)
Definition is_str (s : string) (a : value) : bool :=
  match a with
  | Str s' => String.eqb s' s
  | _ => false
  end.

(** [JSON.parse(JSON.stringify(v))]: what comes back from storage after [v]
    was written there.  A property whose value is [undefined] is dropped, and
    an [undefined] array element comes back as [null]. *)
Fixpoint json_roundtrip (v : value) : value :=
  match v with
  | Arr xs =>
      Arr (map (fun x => match x with
                         | Undefined => Null
                         | _ => json_roundtrip x
                         end) xs)
  | Obj m =>
      Obj (omap (fun x => match x with
                          | Undefined => None
                          | _ => Some (json_roundtrip x)
                          end) m)
  | v => v
  end.

End JS.

(* ===================================================================== *)
(** ** Voice capture: silence detection and the recorder *)
(* ===================================================================== *)

Module VoiceCapture.

(** [const minRecordingDuration = 2000] and the defaults of
    [detectSilence]'s parameters. *)
Definition minRecordingDuration : Z := 2000.
Definition default_silenceDelay : Z := 3000.
Definition default_minDecibels : Z := -45.

(** One run of the [audioprocess] listener: the [Uint8Array] the analyser
    fills (entries in 0..255) and the two readings of [Date.now()] the
    listener takes, in the order it takes them. *)
Record Tick := {
  bins : list Z;
  clock1 : Z;
  clock2 : Z
}.

(** [array.reduce((a, value) => a + value, 0)]. *)
Definition arraySum (array : list Z) : Z := foldl Z.add 0 array.

(** [arraySum / array.length]; [None] is the NaN of 0/0. *)
Definition average (array : list Z) : option Q :=
  if Nat.eqb (length array) 0 then None
  else Some (inject_Z (arraySum array) / inject_Z (Z.of_nat (length array)))%Q.

(** [average === 0]. *)
Definition average_is_zero (array : list Z) : bool :=
  match average array with
  | Some q => Qeq_bool q 0
  | None => false
  end.

(** What one call of [detectSilence] allocates and closes over: the two
    timestamps, the delay, and the audio-graph nodes.  [analyser] is only
    ever connected; the other three are what the listener releases. *)
Record Graph := {
  startTime : Z;
  lastSound : Z;
  silenceDelay : Z;
  minDecibels : Z;
  microphone_connected : bool;
  scriptProcessor_connected : bool;
  audioContext_closed : bool
}.

(** [detectSilence(stream, onSilence, silenceDelay, minDecibels)] up to the
    registration of the listener; [now1] and [now2] are the readings of
    [Date.now()] for [startTime] and for [lastSound]. *)
Definition detectSilence (now1 now2 delay decibels : Z) : Graph :=
  {| startTime := now1;
     lastSound := now2;
     silenceDelay := delay;
     minDecibels := decibels;
     microphone_connected := true;
     scriptProcessor_connected := true;
     audioContext_closed := false |}.

(** [microphone.disconnect(); scriptProcessor.disconnect();
    audioContext.close()]. *)
Definition release (g : Graph) : Graph :=
  {| startTime := startTime g;
     lastSound := lastSound g;
     silenceDelay := silenceDelay g;
     minDecibels := minDecibels g;
     microphone_connected := false;
     scriptProcessor_connected := false;
     audioContext_closed := true |}.

Definition released (g : Graph) : bool :=
  negb (microphone_connected g) && negb (scriptProcessor_connected g)
  && audioContext_closed g.

(** The two nested conditions of the listener. *)
Definition silence_detected (g : Graph) (t : Tick) : bool :=
  (clock1 t - startTime g >? minRecordingDuration)
  && (average_is_zero (bins t) && (clock2 t - lastSound g >? silenceDelay g)).

(** The [audioprocess] listener.  [onSilence] is the callback the caller
    passed in, acting on the caller's state. *)
Definition audioprocess {S : Type} (onSilence : S -> S)
    (t : Tick) (g : Graph) (s : S) : Graph * S :=
  if silence_detected g t then (release g, onSilence s) else (g, s).

(** The platform runs the listener only while the script processor is
    connected and the context is open. *)
Definition listening (g : Graph) : bool :=
  scriptProcessor_connected g && negb (audioContext_closed g).

(** The listener over a stream of ticks, with a callback that records the
    tick at which it was invoked. *)
Fixpoint silence_log (g : Graph) (ticks : list Tick) : Graph * list Tick :=
  match ticks with
  | [] => (g, [])
  | t :: ticks' =>
      if listening g then
        let '(g1, fired) := audioprocess (fun l => t :: l) t g [] in
        let '(g2, rest) := silence_log g1 ticks' in
        (g2, fired ++ rest)
      else (g, [])
  end.

(** [MediaRecorder.state], without ['paused'], which the component never
    enters. *)
Inductive RecorderState := inactive | recording.

(** The recording part of the component's state: the recorder behind
    [mediaRecorderRef] ([None] is the initial [null]), [isRecording],
    [wsError], the number of [onstop] runs (each starts one speech-to-text
    upload), the audio graphs whose listener was registered, oldest first,
    and the number of calls of [startRecording] that still wait for
    [getUserMedia].  A recorder that is replaced while it records is out of
    the component's reach and is not kept here. *)
Record Capture := {
  mediaRecorderRef : option RecorderState;
  isRecording : bool;
  wsError : option string;
  uploads : nat;
  graphs : list Graph;
  pending : nat
}.

Definition initial : Capture :=
  {| mediaRecorderRef := None; isRecording := false; wsError := None;
     uploads := 0; graphs := []; pending := 0 |}.

(** [stopRecording].  [mediaRecorderRef.current.stop()] makes the recorder
    inactive and runs its [onstop] handler. *)
Definition stopRecording (c : Capture) : Capture :=
  match mediaRecorderRef c with
  | Some recording =>
      {| mediaRecorderRef := Some inactive;
         isRecording := false;
         wsError := wsError c;
         uploads := Datatypes.S (uploads c);
         graphs := graphs c;
         pending := pending c |}
  | _ => c
  end.

(** The callback [startRecording] hands to [detectSilence]. *)
Definition onSilence (c : Capture) : Capture :=
  match mediaRecorderRef c with
  | Some recording => stopRecording c
  | _ => c
  end.

(** How [startRecording] goes on once [getUserMedia] has answered:
    [getUserMedia] rejects or the [MediaRecorder] constructor throws, before
    the ref is written; [start()] throws, with the new recorder in the ref;
    [detectSilence] throws before it registers its listener, with the
    recorder recording; or all succeed and [detectSilence] reads the clock
    twice.  [message] is the [error.message] of what was thrown. *)
Inductive Acquire :=
| Failed (message : string)
| StartFailed (message : string)
| DetectFailed (message : string)
| Granted (now1 now2 : Z).

(** The [catch] of [startRecording]. *)
Definition access_failed (message : string) (ref : option RecorderState)
    (c : Capture) : Capture :=
  {| mediaRecorderRef := ref;
     isRecording := false;
     wsError := Some ("Failed to access microphone: " +:+ message);
     uploads := uploads c;
     graphs := graphs c;
     pending := pending c |}.

(** [startRecording] from the answer of [getUserMedia] on. *)
Definition startRecording (a : Acquire) (c : Capture) : Capture :=
  match a with
  | Failed message => access_failed message (mediaRecorderRef c) c
  | StartFailed message => access_failed message (Some inactive) c
  | DetectFailed message => access_failed message (Some recording) c
  | Granted now1 now2 =>
      {| mediaRecorderRef := Some recording;
         isRecording := true;
         wsError := wsError c;
         uploads := uploads c;
         graphs := graphs c ++
                   [detectSilence now1 now2 default_silenceDelay default_minDecibels];
         pending := pending c |}
  end.

(** What can happen to the recorder.  A click on the microphone button
    ([isRecording ? stopRecording : startRecording]) either stops the
    recording or calls [startRecording], which waits for [getUserMedia]:
    [ClickMic a] is a click whose call is answered with [a] before anything
    else happens ([a] plays no part when the click stops a recording);
    [ClickMicAwait] is a click whose call is left waiting, and [MicAnswer a]
    the answer to the oldest call that waits.  [AudioProcess i t] is an
    [audioprocess] event on the [i]-th audio graph. *)
Inductive Event :=
| ClickMic (a : Acquire)
| ClickMicAwait
| MicAnswer (a : Acquire)
| AudioProcess (i : nat) (t : Tick).

Definition with_graphs (gs : list Graph) (c : Capture) : Capture :=
  {| mediaRecorderRef := mediaRecorderRef c; isRecording := isRecording c;
     wsError := wsError c; uploads := uploads c; graphs := gs;
     pending := pending c |}.

Definition with_pending (n : nat) (c : Capture) : Capture :=
  {| mediaRecorderRef := mediaRecorderRef c; isRecording := isRecording c;
     wsError := wsError c; uploads := uploads c; graphs := graphs c;
     pending := n |}.

Definition step (c : Capture) (e : Event) : Capture :=
  match e with
  | ClickMic a => if isRecording c then stopRecording c else startRecording a c
  | ClickMicAwait =>
      if isRecording c then stopRecording c
      else with_pending (Datatypes.S (pending c)) c
  | MicAnswer a =>
      match pending c with
      | O => c
      | Datatypes.S n => startRecording a (with_pending n c)
      end
  | AudioProcess i t =>
      match graphs c !! i with
      | Some g =>
          if listening g then
            let '(g', c') := audioprocess onSilence t g c in
            with_graphs (<[i := g']> (graphs c')) c'
          else c
      | None => c
      end
  end.

Definition run (c : Capture) (es : list Event) : Capture := foldl step c es.

End VoiceCapture.

(* ===================================================================== *)
(** ** The chat session: socket handlers, message log, playback handle *)
(* ===================================================================== *)

Module Language.
Record t := {
  source : JS.value;
  target : JS.value;
  detected : JS.value;
  confidence : JS.value
}.
End Language.

Module Analysis.
Record t := {
  symptoms : JS.value;
  confidence : JS.value;
  urgency : JS.value;
  requiresEmergency : JS.value;
  recommendations : JS.value
}.
End Analysis.

Module Chat.
Import JS.

(** An entry of the [messages] state.  A field the object literal leaves out
    reads as [Undefined]; [timestamp] holds the argument of [new Date(..)]
    (the clock reading for [new Date()]); [analysis] is [None] for the
    literal's [analysis: null]. *)
Record Message := {
  type : value;
  content : value;
  originalContent : value;
  translatedContent : value;
  language : Language.t;
  timestamp : value;
  audio : value;
  analysis : option Analysis.t
}.

Record VoicePreferences := {
  enabled : bool;
  gender : string;
  speed : Q
}.

(** [WebSocket.readyState]. *)
Inductive ReadyState := CONNECTING | OPEN | CLOSING | CLOSED.

(** The socket: its state and the frames handed to [send] that the platform
    accepted, oldest first, each as the object given to [JSON.stringify]. *)
Record Socket := {
  readyState : ReadyState;
  sent : list value
}.

(** An [Audio] element built by the message handler: the base64 payload its
    data URL was built from, its playback rate, and whether it is playing. *)
Record AudioEl := {
  src : value;
  playbackRate : Q;
  playing : bool
}.

(** The state of one ChatInterface: the [useState] cells and refs the
    handlers touch, the elements created so far ([audioPlayerRef] is an index
    into them), and what went to [console.error]. *)
Record State := {
  messages : list Message;
  wsError : value;
  wsInstance : option Socket;
  inputMessage : string;
  selectedLanguage : string;
  autoDetectLanguage : bool;
  showOriginalText : bool;
  voicePreferences : VoicePreferences;
  audios : list AudioEl;
  audioPlayerRef : option nat;
  console : list string
}.

Definition set_messages (f : list Message -> list Message) (st : State) : State :=
  {| messages := f (messages st); wsError := wsError st;
     wsInstance := wsInstance st; inputMessage := inputMessage st;
     selectedLanguage := selectedLanguage st;
     autoDetectLanguage := autoDetectLanguage st;
     showOriginalText := showOriginalText st;
     voicePreferences := voicePreferences st; audios := audios st;
     audioPlayerRef := audioPlayerRef st; console := console st |}.

Definition setWsError (v : value) (st : State) : State :=
  {| messages := messages st; wsError := v;
     wsInstance := wsInstance st; inputMessage := inputMessage st;
     selectedLanguage := selectedLanguage st;
     autoDetectLanguage := autoDetectLanguage st;
     showOriginalText := showOriginalText st;
     voicePreferences := voicePreferences st; audios := audios st;
     audioPlayerRef := audioPlayerRef st; console := console st |}.

Definition set_socket (f : option Socket -> option Socket) (st : State) : State :=
  {| messages := messages st; wsError := wsError st;
     wsInstance := f (wsInstance st); inputMessage := inputMessage st;
     selectedLanguage := selectedLanguage st;
     autoDetectLanguage := autoDetectLanguage st;
     showOriginalText := showOriginalText st;
     voicePreferences := voicePreferences st; audios := audios st;
     audioPlayerRef := audioPlayerRef st; console := console st |}.

Definition setInputMessage (s : string) (st : State) : State :=
  {| messages := messages st; wsError := wsError st;
     wsInstance := wsInstance st; inputMessage := s;
     selectedLanguage := selectedLanguage st;
     autoDetectLanguage := autoDetectLanguage st;
     showOriginalText := showOriginalText st;
     voicePreferences := voicePreferences st; audios := audios st;
     audioPlayerRef := audioPlayerRef st; console := console st |}.

Definition set_audio (els : list AudioEl) (ref : option nat) (st : State) : State :=
  {| messages := messages st; wsError := wsError st;
     wsInstance := wsInstance st; inputMessage := inputMessage st;
     selectedLanguage := selectedLanguage st;
     autoDetectLanguage := autoDetectLanguage st;
     showOriginalText := showOriginalText st;
     voicePreferences := voicePreferences st; audios := els;
     audioPlayerRef := ref; console := console st |}.

Definition console_error (line : string) (st : State) : State :=
  {| messages := messages st; wsError := wsError st;
     wsInstance := wsInstance st; inputMessage := inputMessage st;
     selectedLanguage := selectedLanguage st;
     autoDetectLanguage := autoDetectLanguage st;
     showOriginalText := showOriginalText st;
     voicePreferences := voicePreferences st; audios := audios st;
     audioPlayerRef := audioPlayerRef st; console := console st ++ [line] |}.

(** The initial value of [messages]: one entry, with empty fields. *)
Definition placeholder (now : Z) : Message :=
  {| type := Str "";
     content := Str "";
     originalContent := Str "";
     translatedContent := Str "";
     language := {| Language.source := Str ""; Language.target := Str "";
                    Language.detected := Bool false;
                    Language.confidence := Num 0 |};
     timestamp := Num (inject_Z now);
     audio := Null;
     analysis := Some {| Analysis.symptoms := Arr [];
                         Analysis.confidence := Num 0;
                         Analysis.urgency := Str "";
                         Analysis.requiresEmergency := Bool false;
                         Analysis.recommendations := Arr [] |} |}.

(** The component as its [useState] and [useRef] initialisers leave it,
    first rendered at time [now]. *)
Definition initial (now : Z) : State :=
  {| messages := [placeholder now];
     wsError := Null;
     wsInstance := None;
     inputMessage := "";
     selectedLanguage := "en";
     autoDetectLanguage := true;
     showOriginalText := false;
     voicePreferences := {| enabled := true; gender := "female"; speed := 1 |};
     audios := [];
     audioPlayerRef := None;
     console := [] |}.

(** The connection effect: [new WebSocket(wsUrl)], [setWsInstance(ws)]. *)
Definition connect (st : State) : State :=
  set_socket (fun _ => Some {| readyState := CONNECTING; sent := [] |}) st.

Definition set_readyState (r : ReadyState) (st : State) : State :=
  set_socket (fmap (fun ws => {| readyState := r; sent := sent ws |})) st.

(** [ws.onopen]. *)
Definition onopen (st : State) : State :=
  setWsError Null (set_readyState OPEN st).

(** [ws.onerror] and [ws.onclose]. *)
Definition onerror (st : State) : State :=
  setWsError (Str "Connection error occurred")
    (console_error "WebSocket error:" st).

Definition onclose (st : State) : State :=
  setWsError (Str "Connection closed. Please refresh the page.")
    (set_readyState CLOSED st).

(** One [message] event of the socket: [JSON.parse(event.data)] ([None] when
    it throws), the reading of [Date.now()] should the handler ask for it,
    and whether the promise of [audio.play()] resolves. *)
Record Inbound := {
  parsed : option value;
  arrival : Z;
  play_resolves : bool
}.

(** The object literal [ws.onmessage] appends, for a [data] that is neither
    [null] nor [undefined]. *)
Definition toMessage (data : value) (now : Z) : Message :=
  {| type := or (get_opt "type" data) (Str "bot");
     content := get_opt "content" data;
     originalContent := get_opt "original_message" data;
     translatedContent := get_opt "translated_message" data;
     language :=
       {| Language.source := get_opt "source" (get_opt "language" data);
          Language.target := get_opt "target" (get_opt "language" data);
          Language.detected := get_opt "detected" (get_opt "language" data);
          Language.confidence := get_opt "confidence" (get_opt "language" data) |};
     timestamp := or (get_opt "timestamp" data) (Num (inject_Z now));
     audio := get_opt "audio" data;
     analysis :=
       Some {| Analysis.symptoms := or (get_opt "symptoms" data) (Arr []);
               Analysis.confidence :=
                 get_opt "overall" (get_opt "confidence_scores" data);
               Analysis.urgency := get_opt "urgency" data;
               Analysis.requiresEmergency := get_opt "requires_emergency" data;
               Analysis.recommendations := get_opt "recommendations" data |} |}.

(** The playback part of [ws.onmessage]: a new element, stored in
    [audioPlayerRef], then [await audio.play()]. *)
Definition play_audio (data : value) (resolves : bool) (st : State) : State :=
  if truthy (get_opt "audio" data) && enabled (voicePreferences st) then
    let el := {| src := get_opt "audio" data;
                 playbackRate := speed (voicePreferences st);
                 playing := resolves |} in
    let st' := set_audio (audios st ++ [el]) (Some (length (audios st))) st in
    if resolves then st' else console_error "Error playing audio:" st'
  else st.

(** The [catch] of [ws.onmessage]. *)
Definition processing_failed (st : State) : State :=
  setWsError (Str "Error processing message")
    (console_error "Error processing message:" st).

(** [ws.onmessage]. *)
Definition onmessage (st : State) (ev : Inbound) : State :=
  match parsed ev with
  | None => processing_failed st
  | Some data =>
      match get "type" data with
      | None => processing_failed st
      | Some ty =>
          if is_str "error" ty then
            setWsError (get_opt "content" data)
              (console_error "Server error:" st)
          else
            play_audio data (play_resolves ev)
              (set_messages (fun prev => prev ++ [toMessage data (arrival ev)]) st)
      end
  end.

(** [String.prototype.trim].  A text is held as its UTF-8 bytes.  These are
    the characters the language counts as white space or line terminator,
    each as its bytes: U+0009 to U+000D, U+0020, U+00A0, U+1680, U+2000 to
    U+200A, U+2028, U+2029, U+202F, U+205F, U+3000 and U+FEFF. *)
Definition white_space : list (list nat) :=
  ([[9]; [10]; [11]; [12]; [13]; [32];
   [194; 160];
   [225; 154; 128];
   [226; 128; 128]; [226; 128; 129]; [226; 128; 130]; [226; 128; 131];
   [226; 128; 132]; [226; 128; 133]; [226; 128; 134]; [226; 128; 135];
   [226; 128; 136]; [226; 128; 137]; [226; 128; 138];
   [226; 128; 168]; [226; 128; 169];
   [226; 128; 175];
   [226; 129; 159];
   [227; 128; 128];
   [239; 187; 191]])%nat.

(** [codes] without the leading [p], when it starts with [p]. *)
Fixpoint strip (p codes : list nat) : option (list nat) :=
  match p, codes with
  | [], _ => Some codes
  | x :: p', y :: codes' => if Nat.eqb x y then strip p' codes' else None
  | _ :: _, [] => None
  end.

(** [codes] without its first character, when that is one of [spaces]. *)
Fixpoint strip_space (spaces : list (list nat)) (codes : list nat)
    : option (list nat) :=
  match spaces with
  | [] => None
  | p :: spaces' =>
      match strip p codes with
      | Some rest => Some rest
      | None => strip_space spaces' codes
      end
  end.

(** Strip leading characters of [spaces] as long as there are any; every
    round takes at least one byte, so [fuel] is the length of [codes]. *)
Fixpoint strip_spaces (fuel : nat) (spaces : list (list nat)) (codes : list nat)
    : list nat :=
  match fuel with
  | O => codes
  | Datatypes.S fuel' =>
      match strip_space spaces codes with
      | Some rest => strip_spaces fuel' spaces rest
      | None => codes
      end
  end.

Definition codes_of (s : string) : list nat :=
  map nat_of_ascii (String.list_ascii_of_string s).

Definition text_of (codes : list nat) : string :=
  String.string_of_list_ascii (map ascii_of_nat codes).

Definition trim_start_codes (codes : list nat) : list nat :=
  strip_spaces (length codes) white_space codes.

(** The same from the end: on the reversed bytes, with every character's
    bytes reversed. *)
Definition trim_end_codes (codes : list nat) : list nat :=
  rev (strip_spaces (length codes) (map (@rev nat) white_space) (rev codes)).

Definition trim (s : string) : string :=
  text_of (trim_end_codes (trim_start_codes (codes_of s))).

(** The outbound event and the log entry [handleSendMessage] builds. *)
Definition voice_object (v : VoicePreferences) : value :=
  Obj (<["enabled" := Bool (enabled v)]>
       (<["gender" := Str (gender v)]>
       (<["speed" := Num (speed v)]> ∅))).

Definition outbound_message (text : string) (st : State) : value :=
  Obj (<["type" := Str "message"]>
       (<["content" := Str (trim text)]>
       (<["language" :=
            Obj (<["source" := Str (selectedLanguage st)]>
                 (<["autoDetect" := Bool (autoDetectLanguage st)]> ∅))]>
       (<["preferences" :=
            Obj (<["voice" := voice_object (voicePreferences st)]>
                 (<["showOriginalText" := Bool (showOriginalText st)]> ∅))]> ∅)))).

Definition userMessage (text : string) (now : Z) (st : State) : Message :=
  {| type := Str "user";
     content := Str (trim text);
     originalContent := Undefined;
     translatedContent := Undefined;
     language := {| Language.source := Str (selectedLanguage st);
                    Language.target := Str (selectedLanguage st);
                    Language.detected := Bool false;
                    Language.confidence := Num 1 |};
     timestamp := Num (inject_Z now);
     audio := Undefined;
     analysis := None |}.

(** [ws.send(frame)]: throws an InvalidStateError while the socket is
    connecting ([None]); queues the frame when it is open; discards it once
    closing or closed. *)
Definition send (frame : value) (ws : Socket) : option Socket :=
  match readyState ws with
  | CONNECTING => None
  | OPEN => Some {| readyState := OPEN; sent := sent ws ++ [frame] |}
  | CLOSING | CLOSED => Some ws
  end.

(** The texts a platform gives the [message] of the errors the handlers
    catch: the InvalidStateError of [send] on a connecting socket, the
    TypeError of a property read on [null], and the TypeError of a call of
    [text.trim] on something that is not a string. *)
Record Platform := {
  invalid_state : string;
  null_read : string;
  not_a_function : string
}.

(** [handleSendMessage(text)] at clock reading [now] on platform [p]; the
    report of a failed [send] ends in the platform's [error.message]. *)
Definition handleSendMessage_on (p : Platform) (text : string) (now : Z)
    (st : State) : State :=
  match wsInstance st with
  | None => st
  | Some ws =>
      if String.eqb (trim text) "" then st
      else
        let st1 := set_messages (fun prev => prev ++ [userMessage text now st]) st in
        match send (outbound_message text st) ws with
        | Some ws' => setInputMessage "" (set_socket (fun _ => Some ws') st1)
        | None =>
            setWsError (Str ("Failed to send message: " +:+ invalid_state p))
              (console_error "Error sending message:" st1)
        end
  end.

(** The source fixes no platform.  Where a run of the component is followed
    the errors' names stand for the texts; what depends on the texts is
    stated of [handleSendMessage_on], for every platform. *)
Definition error_names : Platform :=
  {| invalid_state := "InvalidStateError";
     null_read := "TypeError";
     not_a_function := "TypeError" |}.

Definition handleSendMessage : string -> Z -> State -> State :=
  handleSendMessage_on error_names.

(** The clean-up of the connection effect: pause the element behind
    [audioPlayerRef], close the socket. *)
Definition pause (i : nat) (els : list AudioEl) : list AudioEl :=
  alter (fun el => {| src := src el; playbackRate := playbackRate el;
                      playing := false |}) i els.

(** [ws.close()]: nothing on a socket that is closed already; any other
    socket is closing from then on. *)
Definition close (ws : Socket) : Socket :=
  match readyState ws with
  | CLOSED => ws
  | _ => {| readyState := CLOSING; sent := sent ws |}
  end.

Definition cleanup (st : State) : State :=
  let st1 := match audioPlayerRef st with
             | Some i => set_audio (pause i (audios st)) (audioPlayerRef st) st
             | None => st
             end in
  set_socket (fmap close) st1.

(** Everything that can happen to a ChatInterface. *)
Inductive Event :=
| Connect
| Open
| Receive (ev : Inbound)
| SocketError
| Close
| TypeInput (s : string)
| SendClick (now : Z)
| SendText (text : string) (now : Z)
| AudioEnded (i : nat)
| Cleanup.

Definition step (st : State) (e : Event) : State :=
  match e with
  | Connect => connect st
  | Open => onopen st
  | Receive ev => onmessage st ev
  | SocketError => onerror st
  | Close => onclose st
  | TypeInput s => setInputMessage s st
  | SendClick now => handleSendMessage (inputMessage st) now st
  | SendText text now => handleSendMessage text now st
  | AudioEnded i => set_audio (pause i (audios st)) (audioPlayerRef st) st
  | Cleanup => cleanup st
  end.

Definition run (st : State) (es : list Event) : State := foldl step st es.

(** The elements that are playing. *)
Definition active_playbacks (st : State) : list AudioEl :=
  filter (fun el => playing el = true) (audios st).

(** How [ws.onmessage] sorts an event: the payload does not parse, or parses
    to [null]; or it is a server error; or it is appended as [message_of]. *)
Definition malformed (ev : Inbound) : bool :=
  match parsed ev with
  | None => true
  | Some data => nullish data
  end.

Definition error_event (ev : Inbound) : bool :=
  match parsed ev with
  | Some data => is_str "error" (get_opt "type" data)
  | None => false
  end.

Definition message_of (ev : Inbound) : Message :=
  toMessage (default Undefined (parsed ev)) (arrival ev).

Definition appended (ev : Inbound) : list Message :=
  if malformed ev || error_event ev then [] else [message_of ev].

(** The frames the socket accepted so far. *)
Definition sent_frames (st : State) : list value :=
  match wsInstance st with
  | Some ws => sent ws
  | None => []
  end.

(** A frame as [handleSendMessage] builds it: a message event with a
    non-empty text. *)
Definition message_frame (frame : value) : Prop :=
  get_opt "type" frame = Str "message"
  /\ exists s, get_opt "content" frame = Str s /\ s <> "".

(** The log has a user entry with the frame's text. *)
Definition logged (st : State) (frame : value) : Prop :=
  exists m, m ∈ messages st
            /\ type m = Str "user" /\ content m = get_opt "content" frame.

(** What "mapped 1:1" asks of the entry [m] made from the event [data] that
    arrived at [now]: every attribute of the entry is the event's property
    of the same meaning, unchanged; where the event leaves out its type, its
    timestamp or its symptoms, the entry has ['bot'], the time of arrival
    and no symptoms. *)
Definition entry_of_event (data : value) (now : Z) (m : Message) : Prop :=
  type m = (if truthy (get_opt "type" data)
            then get_opt "type" data else Str "bot")
  /\ content m = get_opt "content" data
  /\ originalContent m = get_opt "original_message" data
  /\ translatedContent m = get_opt "translated_message" data
  /\ Language.source (language m) = get_opt "source" (get_opt "language" data)
  /\ Language.target (language m) = get_opt "target" (get_opt "language" data)
  /\ Language.detected (language m) = get_opt "detected" (get_opt "language" data)
  /\ Language.confidence (language m)
     = get_opt "confidence" (get_opt "language" data)
  /\ timestamp m = (if truthy (get_opt "timestamp" data)
                    then get_opt "timestamp" data else Num (inject_Z now))
  /\ audio m = get_opt "audio" data
  /\ exists a,
       analysis m = Some a
       /\ Analysis.symptoms a = (if truthy (get_opt "symptoms" data)
                                 then get_opt "symptoms" data else Arr [])
       /\ Analysis.confidence a
          = get_opt "overall" (get_opt "confidence_scores" data)
       /\ Analysis.urgency a = get_opt "urgency" data
       /\ Analysis.requiresEmergency a = get_opt "requires_emergency" data
       /\ Analysis.recommendations a = get_opt "recommendations" data.

(** The same of an event as it arrives. *)
Definition entry_of (ev : Inbound) (m : Message) : Prop :=
  exists data, parsed ev = Some data /\ entry_of_event data (arrival ev) m.

End Chat.

(* ===================================================================== *)
(** ** The persisted preference blob: its readers and writers *)
(* ===================================================================== *)

Module Prefs.
Import JS.

(** [localStorage], with each stored text held as the value [JSON.parse]
    makes of it. *)
Abbreviation Storage := (gmap string value).

(** A [settings] state object. *)
Abbreviation Settings := (gmap string value).

Definition key : string := "userLanguagePreferences".

(** [settings.k]. *)
Definition field (k : string) (s : Settings) : value :=
  default Undefined (s !! k).

Definition default_voice : value :=
  Obj (<["enabled" := Bool true]>
       (<["gender" := Str "female"]>
       (<["speed" := Num 1]> ∅))).

(** The initial [settings] of ChatInterface and of ConsultationPage. *)
Definition chat_defaults : Settings :=
  <["interfaceLanguage" := Str "en"]>
  (<["preferredLanguage" := Str "en"]>
  (<["autoDetectLanguage" := Bool true]>
  (<["voice" := default_voice]> ∅))).

Definition page_defaults : Settings :=
  <["showSettings" := Bool false]> chat_defaults.

(** [localStorage.setItem(key, JSON.stringify(v))]. *)
Definition setItem (v : value) (store : Storage) : Storage :=
  <[key := json_roundtrip v]> store.

(** The updater both loading effects pass to [setSettings]. *)
Definition apply_saved (savedPreferences : value) (prev : Settings) : Settings :=
  <["interfaceLanguage" := or (get_opt "interface" savedPreferences) (Str "en")]>
  (<["preferredLanguage" := or (get_opt "preferred" savedPreferences) (Str "en")]>
  (<["autoDetectLanguage" :=
       coalesce (get_opt "autoDetect" savedPreferences) (Bool true)]>
  (<["voice" := or (get_opt "voice" savedPreferences) (field "voice" prev)]>
   prev))).

(** The loading effect of ChatInterface:
    [JSON.parse(localStorage.getItem(key) || '{}')]. *)
Definition chat_load (store : Storage) (prev : Settings) : Settings :=
  let savedPreferences := default (Obj ∅) (store !! key) in
  if truthy savedPreferences then apply_saved savedPreferences prev else prev.

(** The loading effect of ConsultationPage:
    [JSON.parse(localStorage.getItem(key))], where a missing item parses to
    [null]. *)
Definition page_load (store : Storage) (prev : Settings) : Settings :=
  let savedPreferences := default Null (store !! key) in
  if truthy savedPreferences then apply_saved savedPreferences prev else prev.

(** [handleSettingChange(setting, value)] of ConsultationPage. *)
Definition handleSettingChange (setting : string) (v : value)
    (prev : Settings) (store : Storage) : Settings * Storage :=
  let newSettings := <[setting := v]> prev in
  (newSettings,
   setItem (Obj (<["interface" := field "interfaceLanguage" newSettings]>
                 (<["preferred" := field "preferredLanguage" newSettings]>
                 (<["autoDetect" := field "autoDetectLanguage" newSettings]>
                 (<["voice" := field "voice" newSettings]> ∅))))) store).

(** [handleLanguageChange(language)] and [handleAutoDetectChange(value)] of
    ChatInterface. *)
Definition handleLanguageChange (lang : value)
    (prev : Settings) (store : Storage) : Settings * Storage :=
  let newSettings := <["preferredLanguage" := lang]> prev in
  (newSettings, setItem (Obj newSettings) store).

Definition handleAutoDetectChange (v : value)
    (prev : Settings) (store : Storage) : Settings * Storage :=
  let newSettings := <["autoDetectLanguage" := v]> prev in
  (newSettings, setItem (Obj newSettings) store).

(** The part of ConsultationSummary's [handleLanguageChange] that saves the
    preference: [{...savedPreferences, preferred: newLanguage}].  Spreading
    anything but an object adds no property the readers look at. *)
Definition summary_save_language (newLanguage : value) (store : Storage) : Storage :=
  let savedPreferences := default (Obj ∅) (store !! key) in
  let own := match savedPreferences with Obj m => m | _ => ∅ end in
  setItem (Obj (<["preferred" := newLanguage]> own)) store.

(** The blob the intake form writes once a consultation was created. *)
Definition intake_save (lang enable_auto_detect : value) (store : Storage) : Storage :=
  setItem (Obj (<["preferred" := lang]>
                (<["interface" := lang]>
                (<["auto_detect" := enable_auto_detect]> ∅)))) store.

(** The second mount effect of ConsultationPage, once the status thunk has
    settled: [result] is what [unwrap()] returns, [None] when it throws. *)
Definition status_effect (result : option value) (prev : Settings) : Settings :=
  match result with
  | None => prev
  | Some r =>
      if truthy r && truthy (get_opt "language_preferences" r) then
        <["preferredLanguage" :=
            or (get_opt "preferred" (get_opt "language_preferences" r))
               (field "preferredLanguage" prev)]>
        (<["interfaceLanguage" :=
             or (get_opt "interface" (get_opt "language_preferences" r))
                (field "interfaceLanguage" prev)]> prev)
      else prev
  end.

(** The settings of a ConsultationPage that was mounted with [store] in
    place and whose status request gave [result]: the load effect, then the
    status effect. *)
Definition page_reload (store : Storage) (result : option value)
    (fresh : Settings) : Settings :=
  status_effect result (page_load store fresh).

End Prefs.

(* ===================================================================== *)
(** ** utils/api.js: the socket service and the speech API *)
(* ===================================================================== *)

Module Api.
Import JS.

(** [options.k] for an [options] object. *)
Definition option_ (k : string) (options : gmap string value) : value :=
  default Undefined (options !! k).

(** The object [WebSocketService.connect] sends from [ws.onopen]. *)
Definition init_event (options : gmap string value) : value :=
  Obj (<["type" := Str "init"]>
       (<["preferences" :=
            Obj (<["language" := or (option_ "language" options) (Str "en")]>
                 (<["autoDetect" := or (option_ "autoDetect" options) (Bool true)]>
                 (<["voicePreferences" :=
                      or (option_ "voicePreferences" options)
                         (Obj (<["enabled" := Bool true]>
                               (<["gender" := Str "female"]> ∅)))]> ∅)))]> ∅)).

(** [WebSocketService.connect(consultationId, options)]: the new socket, and
    its [onopen] handler up to the call of [options.onOpen]. *)
Definition connect : Chat.Socket :=
  {| Chat.readyState := Chat.CONNECTING; Chat.sent := [] |}.

Definition onopen (options : gmap string value) (ws : Chat.Socket) : option Chat.Socket :=
  Chat.send (init_event options)
    {| Chat.readyState := Chat.OPEN; Chat.sent := Chat.sent ws |}.

(** A [FormData] entry: the blob, or a value the platform turns into a
    string when it appends it. *)
Inductive FormValue (B : Type) :=
| File (blob : B)
| Field (v : value).
Arguments File {B} blob.
Arguments Field {B} v.

(** The [FormData] that [speechApi.translateSpeech(audioBlob, options)]
    posts, entries in the order they are appended. *)
Definition translateSpeech {B : Type} (audioBlob : B)
    (options : gmap string value) : list (string * FormValue B) :=
  [("audio", File audioBlob)]
  ++ (if truthy (option_ "sourceLanguage" options)
      then [("source_language", Field (option_ "sourceLanguage" options))]
      else [])
  ++ [("target_language", Field (or (option_ "targetLanguage" options) (Str "en")));
      ("auto_detect", Field (or (option_ "autoDetect" options) (Bool true)));
      ("voice_gender", Field (or (option_ "voiceGender" options) (Str "female")))].

(** [formData.get(name)]: the first entry of that name. *)
Definition form_get {B : Type} (name : string)
    (form : list (string * FormValue B)) : option (FormValue B) :=
  match list_find (fun e => e.1 = name) form with
  | Some (_, (_, v)) => Some v
  | None => None
  end.

(** The auto-detect flag each of the two operations transmits. *)
Definition init_autoDetect (options : gmap string value) : value :=
  get_opt "autoDetect" (get_opt "preferences" (init_event options)).

Definition form_auto_detect {B : Type} (audioBlob : B)
    (options : gmap string value) : option value :=
  match form_get "auto_detect" (translateSpeech audioBlob options) with
  | Some (Field v) => Some v
  | _ => None
  end.

End Api.

(* ===================================================================== *)
(** ** AudioControls: the player of one message bubble *)
(* ===================================================================== *)

Module AudioControls.

(** One mounted AudioControls: its state cells and the element behind its
    own [audioRef], created from [audioUrl] when the component mounts. *)
Record Controls := {
  isPlaying : bool;
  currentTime : Q;
  playbackSpeed : Q;
  volume : Q;
  audioRef : Chat.AudioEl
}.

Definition mount (audioUrl : JS.value) : Controls :=
  {| isPlaying := false; currentTime := 0; playbackSpeed := 1; volume := 1;
     audioRef := {| Chat.src := audioUrl; Chat.playbackRate := 1;
                    Chat.playing := false |} |}.

Definition set_playing (b : bool) (el : Chat.AudioEl) : Chat.AudioEl :=
  {| Chat.src := Chat.src el; Chat.playbackRate := Chat.playbackRate el;
     Chat.playing := b |}.

(** [handlePlayPause]; [resolves] is whether the platform starts the
    playback [audioRef.current.play()] asks for. *)
Definition handlePlayPause (resolves : bool) (c : Controls) : Controls :=
  {| isPlaying := negb (isPlaying c);
     currentTime := currentTime c;
     playbackSpeed := playbackSpeed c;
     volume := volume c;
     audioRef := if isPlaying c then set_playing false (audioRef c)
                 else set_playing resolves (audioRef c) |}.

(** [handleEnded], run when the element reaches its end. *)
Definition handleEnded (c : Controls) : Controls :=
  {| isPlaying := false;
     currentTime := 0;
     playbackSpeed := playbackSpeed c;
     volume := volume c;
     audioRef := set_playing false (audioRef c) |}.

(** The bubbles of a chat, each with its own controls; a click on the play
    button of the [i]-th. *)
Definition click (i : nat) (resolves : bool) (bubbles : list Controls) : list Controls :=
  alter (handlePlayPause resolves) i bubbles.

Definition active (bubbles : list Controls) : list Controls :=
  filter (fun c => Chat.playing (audioRef c) = true) bubbles.

End AudioControls.

(* ===================================================================== *)
(** ** Concrete inputs used by the examples below *)
(* ===================================================================== *)

Module Scenario.
Import JS.

(** A tick with all three bins at zero, and one with sound, read at [t]. *)
Definition quiet (t : Z) : VoiceCapture.Tick :=
  {| VoiceCapture.bins := [0; 0; 0];
     VoiceCapture.clock1 := t; VoiceCapture.clock2 := t |}.
Definition loud (t : Z) : VoiceCapture.Tick :=
  {| VoiceCapture.bins := [0; 37; 4];
     VoiceCapture.clock1 := t; VoiceCapture.clock2 := t |}.

(** The bot event of the headache scenario. *)
Definition bot_data : value :=
  Obj (<["type" := Str "bot"]>
       (<["content" := Str "..."]>
       (<["language" := Obj (<["source" := Str "en"]> (<["target" := Str "en"]> ∅))]>
       (<["symptoms" := Arr [Obj (<["name" := Str "headache"]> ∅)]]>
       (<["requires_emergency" := Bool false]> ∅))))).

Definition bot_event : Chat.Inbound :=
  {| Chat.parsed := Some bot_data; Chat.arrival := 9; Chat.play_resolves := true |}.

(** A bot event that carries synthesized speech. *)
Definition spoken (text payload : string) (now : Z) : Chat.Inbound :=
  {| Chat.parsed := Some (Obj (<["type" := Str "bot"]>
                               (<["content" := Str text]>
                               (<["audio" := Str payload]> ∅))));
     Chat.arrival := now;
     Chat.play_resolves := true |}.

(** A server error, and a frame that is not JSON. *)
Definition server_error : Chat.Inbound :=
  {| Chat.parsed := Some (Obj (<["type" := Str "error"]>
                               (<["content" := Str "translation failed"]> ∅)));
     Chat.arrival := 12; Chat.play_resolves := true |}.

Definition garbage : Chat.Inbound :=
  {| Chat.parsed := None; Chat.arrival := 13; Chat.play_resolves := true |}.

(** A preference blob as ConsultationPage writes it. *)
Definition male_voice : value :=
  Obj (<["enabled" := Bool true]>
       (<["gender" := Str "male"]>
       (<["speed" := Num 1.5]> ∅))).

Definition saved_blob : value :=
  Obj (<["interface" := Str "hi"]>
       (<["preferred" := Str "hi"]>
       (<["autoDetect" := Bool false]>
       (<["voice" := male_voice]> ∅)))).

Definition saved_store : gmap string value := <[Prefs.key := saved_blob]> ∅.

(** A status answer of the server, with the language the consultation was
    started in. *)
Definition status_body : value :=
  Obj (<["consultation_id" := Str "c1"]>
       (<["user_details" := Obj (<["first_name" := Str "Asha"]> ∅)]>
       (<["language_preferences" :=
            Obj (<["preferred" := Str "en"]>
                 (<["interface" := Str "en"]> ∅))]> ∅))).

(** The headache scenario on a fresh component. *)
Definition headache : list Chat.Event :=
  [Chat.Connect; Chat.Open; Chat.SendText "I have a headache" 5;
   Chat.Receive bot_event].

(** Two spoken answers in a row; neither element reaches its end. *)
Definition overlap : list Chat.Event :=
  [Chat.Connect; Chat.Open;
   Chat.Receive (spoken "A" "QUFB" 10); Chat.Receive (spoken "B" "QkJC" 20)].

(** A recording stopped by a click at 900 ms, a second one started at
    1500 ms, and no sound at all: the ticks up to 2000 ms. *)
Definition second_recording : list VoiceCapture.Event :=
  [VoiceCapture.ClickMic (VoiceCapture.Granted 0 0);
   VoiceCapture.AudioProcess 0 (quiet 500);
   VoiceCapture.ClickMicAwait;
   VoiceCapture.ClickMic (VoiceCapture.Granted 1500 1500);
   VoiceCapture.AudioProcess 0 (quiet 2000);
   VoiceCapture.AudioProcess 1 (quiet 2000)].

(** The texts of one browser. *)
Definition chromium : Chat.Platform :=
  {| Chat.invalid_state :=
       "Failed to execute 'send' on 'WebSocket': Still in CONNECTING state.";
     Chat.null_read := "Cannot read properties of null (reading 'text')";
     Chat.not_a_function := "text.trim is not a function" |}.

End Scenario.

(* ===================================================================== *)
(** ** MessageBubble and ConfidenceIndicator: what a log entry shows *)
(* ===================================================================== *)

Module Bubble.
Import JS.

(** [a !== b] for the two values MessageBubble compares, which are two
    different properties of a log entry: primitives differ by value, and an
    array or an object is never the same reference as the other property. *)
Definition strict_neq (a b : value) : bool :=
  match a, b with
  | Undefined, Undefined => false
  | Null, Null => false
  | Bool x, Bool y => negb (Bool.eqb x y)
  | Num x, Num y => negb (Qeq_bool x y)
  | Str x, Str y => negb (String.eqb x y)
  | _, _ => true
  end.

(** [isUser], [hasTranslation] and [displayText] of MessageBubble. *)
Definition isUser (message : Chat.Message) : bool :=
  is_str "user" (Chat.type message).

Definition hasTranslation (message : Chat.Message) : bool :=
  strict_neq (Chat.originalContent message) (Chat.content message).

Definition displayText (showOriginal : bool) (message : Chat.Message) : value :=
  if showOriginal then Chat.originalContent message else Chat.content message.

(** [message.analysis?.requiresEmergency], the condition of the emergency
    badge. *)
Definition emergencyBadge (message : Chat.Message) : bool :=
  match Chat.analysis message with
  | Some a => truthy (Analysis.requiresEmergency a)
  | None => false
  end.

(** The three bands of ConfidenceIndicator, as each of its four places
    computes them: the colour of the number ([ConfidenceValue]),
    [getConfidenceColor], the icon of [getConfidenceIcon] and the first words
    of [getTooltipText]. *)
Inductive Band := success | warning | error.

Definition valueColor (confidence : Q) : Band :=
  if Qle_bool 70 confidence then success
  else if Qle_bool 40 confidence then warning
  else error.

Definition getConfidenceColor (score : Q) : Band :=
  if Qle_bool 70 score then success
  else if Qle_bool 40 score then warning
  else error.

Definition iconBand (score : Q) : Band :=
  if Qle_bool 70 score then success
  else if Qle_bool 40 score then warning
  else error.

Definition baseText (score : Q) : string :=
  if Qle_bool 70 score then "High confidence"
  else if Qle_bool 40 score then "Moderate confidence"
  else "Low confidence".

(** The bands from worst to best. *)
Definition band_rank (b : Band) : nat :=
  match b with
  | error => 0
  | warning => 1
  | success => 2
  end.

(** [getTooltipText(score, type)]; [names] is the text the template prints
    for [getLanguageName] of the source and of the target language. *)
Definition getTooltipText (score : Q) (type : string) (showLanguages : bool)
    (names : string * string) : string :=
  if String.eqb type "translation" && showLanguages then
    baseText score +:+ " in translation from " +:+ names.1 +:+ " to " +:+ names.2
  else if String.eqb type "medical" then
    baseText score +:+ " in medical analysis"
  else baseText score +:+ " in response".

End Bubble.

(* ===================================================================== *)
(** ** ChatInterface: [handleWsMessage] and the speech-to-text upload *)
(* ===================================================================== *)

Module ChatMore.
Import JS Chat.

(** The entry [handleWsMessage] builds, for a [data] that is neither [null]
    nor [undefined]; [preferredLanguage] is [settings.preferredLanguage]. *)
Definition messageData (data : value) (now : Z) (preferredLanguage : value) : Message :=
  {| type := or (get_opt "type" data) (Str "bot");
     content := get_opt "content" data;
     originalContent := get_opt "original_content" data;
     translatedContent := get_opt "translated_content" data;
     language :=
       {| Language.source :=
            or (get_opt "source" (get_opt "language" data)) preferredLanguage;
          Language.target :=
            or (get_opt "target" (get_opt "language" data)) preferredLanguage;
          Language.detected :=
            or (get_opt "detected" (get_opt "language" data)) (Bool false);
          Language.confidence :=
            or (get_opt "confidence" (get_opt "language" data)) (Num 1) |};
     timestamp := or (get_opt "timestamp" data) (Num (inject_Z now));
     audio := get_opt "audio" data;
     analysis :=
       Some {| Analysis.symptoms := or (get_opt "symptoms" data) (Arr []);
               Analysis.confidence :=
                 or (get_opt "overall" (get_opt "confidence_scores" data)) (Num 1);
               Analysis.urgency := get_opt "urgency" data;
               Analysis.requiresEmergency := get_opt "requires_emergency" data;
               Analysis.recommendations :=
                 or (get_opt "recommendations" data) (Arr []) |} |}.

(** [handleWsMessage(data)]; on [null] or [undefined] the read of
    [data.type] throws before anything is appended. *)
Definition handleWsMessage (data : value) (now : Z) (preferredLanguage : value)
    (st : State) : State :=
  match get "type" data with
  | None => st
  | Some _ =>
      set_messages (fun prev => prev ++ [messageData data now preferredLanguage]) st
  end.

(** The component with its [isProcessing] cell. *)
Record Session := {
  chat : State;
  isProcessing : bool
}.

(** How the speech-to-text request ends: [fetch] rejects; the server answers
    with a status outside 200..299; the body is not JSON; or the body parses
    to [data]. *)
Inductive Response :=
| NetworkFailure (message : string)
| HttpStatus (status : Z)
| BadBody (message : string)
| Body (data : value).

(** The [catch] of the handler. *)
Definition voice_input_failed (message : string) (st : State) : State :=
  setWsError (Str ("Failed to process voice input: " +:+ message))
    (console_error "Speech to text error:" st).

(** The handler from the arrival of the response on, on platform [p]: the
    state it leaves, and the argument of [setSelectedLanguage] when it calls
    it.  A [null] body makes [data.text] throw; [data.text] is passed to
    [handleSendMessage], whose [text.trim()] throws unless it is a string.
    The handler reads the cells as of the render that started the recording;
    nothing writes the cells it reads while a recording or an upload runs. *)
Definition onstop_chat_on (p : Platform) (r : Response) (now : Z) (st : State)
    : State * option value :=
  match r with
  | NetworkFailure message => (voice_input_failed message st, None)
  | HttpStatus status =>
      (voice_input_failed ("Server responded with " +:+ pretty status) st, None)
  | BadBody message => (voice_input_failed message st, None)
  | Body data =>
      match get "text" data with
      | None => (voice_input_failed (null_read p) st, None)
      | Some text =>
          if truthy text then
            match text with
            | Str s =>
                (handleSendMessage_on p s now st,
                 if truthy (get_opt "detected" (get_opt "language" data))
                    && autoDetectLanguage st
                 then Some (get_opt "code" (get_opt "language" data))
                 else None)
            | _ => (voice_input_failed (not_a_function p) st, None)
            end
          else (st, None)
      end
  end.

(** The responses the handler cannot use, with the text it reports. *)
Definition failure_on (p : Platform) (r : Response) : option string :=
  match r with
  | NetworkFailure message => Some message
  | HttpStatus status => Some ("Server responded with " +:+ pretty status)
  | BadBody message => Some message
  | Body data =>
      match get "text" data with
      | None => Some (null_read p)
      | Some (Str _) => None
      | Some text => if truthy text then Some (not_a_function p) else None
      end
  end.

(** [mediaRecorderRef.current.onstop]: [isProcessing] is set, the request
    runs, the response is handled, and [finally] clears [isProcessing]. *)
Definition onstop_on (p : Platform) (r : Response) (now : Z) (s : Session)
    : Session * option value :=
  let '(st, language) := onstop_chat_on p r now (chat s) in
  ({| chat := st; isProcessing := false |}, language).

(** The same with the errors' names for the texts. *)
Definition onstop_chat : Response -> Z -> State -> State * option value :=
  onstop_chat_on error_names.

Definition failure : Response -> option string := failure_on error_names.

Definition onstop : Response -> Z -> Session -> Session * option value :=
  onstop_on error_names.

End ChatMore.

(* ===================================================================== *)
(** ** AudioControls: the whole component, with its effect *)
(* ===================================================================== *)

Module Player.

(** One mounted AudioControls: its five state cells, what its element holds,
    and whether a frame of [updateProgress] is scheduled.  ([AudioControls]
    above is the play/pause part of this.) *)
Record Controls := {
  isPlaying : bool;
  currentTime : Q;
  duration : Q;
  playbackSpeed : Q;
  volume : Q;
  el_playing : bool;
  el_playbackRate : Q;
  el_volume : Q;
  el_currentTime : Q;
  animating : bool
}.

(** The first render and the first run of the effect. *)
Definition mount : Controls :=
  {| isPlaying := false; currentTime := 0; duration := 0;
     playbackSpeed := 1; volume := 1;
     el_playing := false; el_playbackRate := 1; el_volume := 1;
     el_currentTime := 0; animating := false |}.

(** The effect depends on [audioUrl], [playbackSpeed] and [volume].  When one
    of the two cells changes, its clean-up runs ([audio.pause()],
    [cancelAnimationFrame]) and then its body, which writes both cells to the
    element. *)
Definition rerun_effect (c : Controls) : Controls :=
  {| isPlaying := isPlaying c; currentTime := currentTime c;
     duration := duration c;
     playbackSpeed := playbackSpeed c; volume := volume c;
     el_playing := false;
     el_playbackRate := playbackSpeed c;
     el_volume := volume c;
     el_currentTime := el_currentTime c;
     animating := false |}.

(** [handlePlayPause]; [resolves] is whether the platform starts the
    playback [play()] asks for. *)
Definition handlePlayPause (resolves : bool) (c : Controls) : Controls :=
  {| isPlaying := negb (isPlaying c); currentTime := currentTime c;
     duration := duration c;
     playbackSpeed := playbackSpeed c; volume := volume c;
     el_playing := if isPlaying c then false else resolves;
     el_playbackRate := el_playbackRate c;
     el_volume := el_volume c;
     el_currentTime := el_currentTime c;
     animating := negb (isPlaying c) |}.

(** [handleSpeedChange(speed)]: the cell and the element are written; a
    changed cell makes the effect run again. *)
Definition handleSpeedChange (speed : Q) (c : Controls) : Controls :=
  let c' := {| isPlaying := isPlaying c; currentTime := currentTime c;
               duration := duration c;
               playbackSpeed := speed; volume := volume c;
               el_playing := el_playing c;
               el_playbackRate := speed;
               el_volume := el_volume c;
               el_currentTime := el_currentTime c;
               animating := animating c |} in
  if Qeq_bool speed (playbackSpeed c) then c' else rerun_effect c'.

(** [handleVolumeChange(_, value)]. *)
Definition handleVolumeChange (v : Q) (c : Controls) : Controls :=
  let c' := {| isPlaying := isPlaying c; currentTime := currentTime c;
               duration := duration c;
               playbackSpeed := playbackSpeed c; volume := v;
               el_playing := el_playing c;
               el_playbackRate := el_playbackRate c;
               el_volume := v;
               el_currentTime := el_currentTime c;
               animating := animating c |} in
  if Qeq_bool v (volume c) then c' else rerun_effect c'.

(** [handleTimeChange(_, value)]. *)
Definition handleTimeChange (v : Q) (c : Controls) : Controls :=
  {| isPlaying := isPlaying c; currentTime := v;
     duration := duration c;
     playbackSpeed := playbackSpeed c; volume := volume c;
     el_playing := el_playing c;
     el_playbackRate := el_playbackRate c;
     el_volume := el_volume c;
     el_currentTime := v;
     animating := animating c |}.

(** [handleEnded], which the platform calls when the playing element reaches
    its end. *)
Definition handleEnded (c : Controls) : Controls :=
  {| isPlaying := false; currentTime := 0;
     duration := duration c;
     playbackSpeed := playbackSpeed c; volume := volume c;
     el_playing := false;
     el_playbackRate := el_playbackRate c;
     el_volume := el_volume c;
     el_currentTime := el_currentTime c;
     animating := false |}.

(** [handleLoadedMetadata]. *)
Definition handleLoadedMetadata (d : Q) (c : Controls) : Controls :=
  {| isPlaying := isPlaying c; currentTime := currentTime c;
     duration := d;
     playbackSpeed := playbackSpeed c; volume := volume c;
     el_playing := el_playing c;
     el_playbackRate := el_playbackRate c;
     el_volume := el_volume c;
     el_currentTime := el_currentTime c;
     animating := animating c |}.

(** One frame of [updateProgress], with the position the element reports. *)
Definition updateProgress (position : Q) (c : Controls) : Controls :=
  {| isPlaying := isPlaying c; currentTime := position;
     duration := duration c;
     playbackSpeed := playbackSpeed c; volume := volume c;
     el_playing := el_playing c;
     el_playbackRate := el_playbackRate c;
     el_volume := el_volume c;
     el_currentTime := position;
     animating := animating c |}.

Inductive Event :=
| PlayPause (resolves : bool)
| SpeedChange (speed : Q)
| VolumeChange (v : Q)
| TimeChange (v : Q)
| Ended
| LoadedMetadata (d : Q)
| Frame (position : Q).

(** The platform reports the end only of a playing element, and runs a frame
    only while one is scheduled. *)
Definition step (c : Controls) (e : Event) : Controls :=
  match e with
  | PlayPause resolves => handlePlayPause resolves c
  | SpeedChange speed => handleSpeedChange speed c
  | VolumeChange v => handleVolumeChange v c
  | TimeChange v => handleTimeChange v c
  | Ended => if el_playing c then handleEnded c else c
  | LoadedMetadata d => handleLoadedMetadata d c
  | Frame position => if animating c then updateProgress position c else c
  end.

Definition run (c : Controls) (es : list Event) : Controls := foldl step c es.

(** An event that leaves the effect's dependencies alone, with a playback
    the platform does start. *)
Definition keeps_effect (e : Event) : bool :=
  match e with
  | PlayPause resolves => resolves
  | SpeedChange _ | VolumeChange _ => false
  | _ => true
  end.

End Player.

(* ===================================================================== *)
(** ** utils/api.js: the request builders *)
(* ===================================================================== *)

Module Requests.
Import JS.

(** [consultationApi.startConsultation(userData)] from the response on:
    [response] is the axios response, [nowIso] is
    [new Date().toISOString()].  [inl] is the message of the error thrown. *)
Definition startConsultation (userData response : value) (nowIso : string)
    : string + value :=
  let data := get_opt "data" response in
  if negb (truthy (get_opt "consultation_id" data))
     || negb (truthy (get_opt "user_details" data))
  then inl "Invalid response format from server"
  else
    let fallback :=
      match get "preferred" (get_opt "language_preferences" userData) with
      | None => None
      | Some preferred =>
          Some (Obj (<["preferred" := preferred]>
                     (<["interface" :=
                          get_opt "interface" (get_opt "language_preferences" userData)]>
                     (<["auto_detect" :=
                          get_opt "auto_detect" (get_opt "language_preferences" userData)]> ∅))))
      end in
    let language_preferences :=
      if truthy (get_opt "language_preferences" data)
      then Some (get_opt "language_preferences" data)
      else fallback in
    match language_preferences with
    | None => inl "TypeError"
    | Some lp =>
        inr (Obj (<["consultation_id" := get_opt "consultation_id" data]>
                  (<["user_details" := get_opt "user_details" data]>
                  (<["language_preferences" := lp]>
                  (<["created_at" := or (get_opt "created_at" data) (Str nowIso)]> ∅)))))
    end.

(** [consultationApi.getConsultationStatus(id)] from the response on. *)
Definition getConsultationStatus (response : value) : string + value :=
  if truthy (get_opt "data" response) then inr (get_opt "data" response)
  else inl "Invalid consultation data received".


(** The body [speechApi.textToSpeech(text, options)] posts. *)
Definition textToSpeech (text : value) (options : gmap string value) : value :=
  Obj (<["text" := text]>
       (<["target_language" := or (Api.option_ "targetLanguage" options) (Str "en")]>
       (<["voice_gender" := or (Api.option_ "voiceGender" options) (Str "female")]>
       (<["voice_style" := Api.option_ "voiceStyle" options]> ∅)))).

End Requests.

(* ===================================================================== *)
(** ** The consultation slice and what ConsultationPage renders from it *)
(* ===================================================================== *)

Module Consultation.
Import JS.

Record State := {
  consultationId : value;
  userDetails : value;
  chatHistory : value;
  diagnosis : value;
  loading : bool;
  error : value;
  status : string;
  languagePreferences : value;
  sessionMetadata : value
}.

Definition initialState : State :=
  {| consultationId := Null; userDetails := Null; chatHistory := Arr [];
     diagnosis := Null; loading := false; error := Null; status := "idle";
     languagePreferences :=
       Obj (<["preferred" := Str "en"]>
            (<["interface" := Str "en"]>
            (<["auto_detect" := Bool true]> ∅)));
     sessionMetadata := Null |}.

(** The actions of the slice.  A thunk is dispatched as [pending] and then as
    [fulfilled] with the value it returned or as [rejected] with the value it
    gave to [rejectWithValue]. *)
Inductive Action :=
| clearConsultation
| updateLanguagePreferences (payload : value)
| startPending
| startFulfilled (payload : value) (nowIso : string)
| startRejected (payload : value)
| statusPending
| statusFulfilled (payload : value)
| statusRejected (payload : value).

(** The reducer; [None] is a TypeError from a read on a [null] or
    [undefined] payload. *)
Definition reducer (s : State) (a : Action) : option State :=
  match a with
  | clearConsultation => Some initialState
  | updateLanguagePreferences payload =>
      Some {| consultationId := consultationId s; userDetails := userDetails s;
              chatHistory := chatHistory s; diagnosis := diagnosis s;
              loading := loading s; error := error s; status := status s;
              languagePreferences := payload;
              sessionMetadata := sessionMetadata s |}
  | startPending =>
      Some {| consultationId := consultationId s; userDetails := userDetails s;
              chatHistory := chatHistory s; diagnosis := diagnosis s;
              loading := true; error := Null; status := "loading";
              languagePreferences := languagePreferences s;
              sessionMetadata := sessionMetadata s |}
  | startFulfilled payload nowIso =>
      match get "consultation_id" payload with
      | None => None
      | Some id =>
          Some {| consultationId := id;
                  userDetails := get_opt "user_details" payload;
                  chatHistory := chatHistory s; diagnosis := diagnosis s;
                  loading := false; error := error s; status := "succeeded";
                  languagePreferences := get_opt "language_preferences" payload;
                  sessionMetadata :=
                    Obj (<["created_at" := get_opt "created_at" payload]>
                         (<["lastActivity" := Str nowIso]> ∅)) |}
      end
  | startRejected payload =>
      Some {| consultationId := consultationId s; userDetails := userDetails s;
              chatHistory := chatHistory s; diagnosis := diagnosis s;
              loading := false;
              error := or payload (Str "Failed to start consultation");
              status := "failed";
              languagePreferences := languagePreferences s;
              sessionMetadata := sessionMetadata s |}
  | statusPending =>
      Some {| consultationId := consultationId s; userDetails := userDetails s;
              chatHistory := chatHistory s; diagnosis := diagnosis s;
              loading := true; error := Null; status := status s;
              languagePreferences := languagePreferences s;
              sessionMetadata := sessionMetadata s |}
  | statusFulfilled payload =>
      match get "user_details" payload with
      | None => None
      | Some details =>
          Some {| consultationId := consultationId s;
                  userDetails := details;
                  chatHistory := or (get_opt "chat_history" payload) (Arr []);
                  diagnosis := or (get_opt "diagnosis" payload) Null;
                  loading := false; error := error s; status := "succeeded";
                  languagePreferences := get_opt "language_preferences" payload;
                  sessionMetadata := sessionMetadata s |}
      end
  | statusRejected payload =>
      Some {| consultationId := consultationId s; userDetails := userDetails s;
              chatHistory := chatHistory s; diagnosis := diagnosis s;
              loading := false;
              error := or payload (Str "Failed to get consultation status");
              status := status s;
              languagePreferences := languagePreferences s;
              sessionMetadata := sessionMetadata s |}
  end.

(** The two thunks from the response on: the actions they dispatch after
    [pending].  A thrown error's message goes to [rejectWithValue], the
    fallback text in place of an empty one. *)
Definition startConsultation (userData response : value) (nowIso : string) : Action :=
  match Requests.startConsultation userData response nowIso with
  | inr data => startFulfilled data nowIso
  | inl message =>
      startRejected (or (Str message) (Str "Failed to start consultation"))
  end.

Definition getConsultationStatus (response : value) : Action :=
  match Requests.getConsultationStatus response with
  | inr data => statusFulfilled data
  | inl message =>
      statusRejected (or (Str message) (Str "Failed to get consultation status"))
  end.

(** How a status request ends: with a 2xx answer, or with an error the
    interceptor raises, whose message the thunk gives to [rejectWithValue]
    (the fallback text in place of an empty one). *)
Inductive Answer :=
| Answered (response : value)
| RequestFailed (message : string).

Definition statusAction (a : Answer) : Action :=
  match a with
  | Answered response => getConsultationStatus response
  | RequestFailed message =>
      statusRejected (or (Str message) (Str "Failed to get consultation status"))
  end.

(** The reducer over a sequence of actions. *)
Fixpoint reduce (s : State) (actions : list Action) : option State :=
  match actions with
  | [] => Some s
  | a :: actions' =>
      match reducer s a with
      | Some s' => reduce s' actions'
      | None => None
      end
  end.

(** What mounting ConsultationPage dispatches: both mount effects start the
    status thunk, and then the two requests end, [first] before [second]. *)
Definition page_mount (first second : Answer) : list Action :=
  [statusPending; statusPending; statusAction first; statusAction second].

(** A request that ended with a usable body. *)
Definition usable (a : Answer) : bool :=
  match a with
  | Answered response => truthy (get_opt "data" response)
  | RequestFailed _ => false
  end.

(** The value the thunk gives to [rejectWithValue] for a request without a
    usable body: the text [consultationApi.getConsultationStatus] throws, or
    the message of the interceptor's error, the fallback in place of an
    empty one. *)
Definition rejection (a : Answer) : value :=
  match a with
  | Answered _ => Str "Invalid consultation data received"
  | RequestFailed message =>
      if String.eqb message "" then Str "Failed to get consultation status"
      else Str message
  end.

(** What ConsultationPage returns: the spinner, the error alert, the
    "No consultation data found" warning, or the page with the chat. *)
Inductive View :=
| Spinner
| ErrorAlert (message : value)
| NoData
| Page.

Definition render (consultation : State) : View :=
  if loading consultation then Spinner
  else if truthy (error consultation) then ErrorAlert (error consultation)
  else if negb (truthy (userDetails consultation)) then NoData
  else Page.

End Consultation.

(* ===================================================================== *)
(** * Properties *)
(* ===================================================================== *)

(** ** Silence detection *)

Section SilenceDetection.
Import VoiceCapture Scenario.

Lemma silence_detected_min_duration (g : Graph) (t : Tick) :
  silence_detected g t = true ->
  startTime g + minRecordingDuration < clock1 t.
Proof.
  unfold silence_detected. intros H.
  apply andb_prop in H as [H _]. apply Z.gtb_lt in H. lia.
Qed.

Lemma silence_detected_delay (g : Graph) (t : Tick) :
  silence_detected g t = true ->
  average_is_zero (bins t) = true /\ lastSound g + silenceDelay g < clock2 t.
Proof.
  unfold silence_detected. intros H.
  apply andb_prop in H as [_ H]. apply andb_prop in H as [H0 H1].
  apply Z.gtb_lt in H1. split; [done | lia].
Qed.

(** The listener never writes either timestamp. *)
Lemma audioprocess_timestamps {S : Type} (onSilence : S -> S)
    (t : Tick) (g : Graph) (s : S) :
  startTime (audioprocess onSilence t g s).1 = startTime g
  /\ lastSound (audioprocess onSilence t g s).1 = lastSound g
  /\ silenceDelay (audioprocess onSilence t g s).1 = silenceDelay g.
Proof. unfold audioprocess. by destruct (silence_detected g t). Qed.

(** The callback runs exactly when both conditions hold, and the nodes are
    released in the same run of the listener. *)
Lemma audioprocess_fires {S : Type} (onSilence : S -> S)
    (t : Tick) (g : Graph) (s : S) :
  silence_detected g t = true ->
  audioprocess onSilence t g s = (release g, onSilence s).
Proof. unfold audioprocess. by intros ->. Qed.

Lemma audioprocess_idle {S : Type} (onSilence : S -> S)
    (t : Tick) (g : Graph) (s : S) :
  silence_detected g t = false ->
  audioprocess onSilence t g s = (g, s).
Proof. unfold audioprocess. by intros ->. Qed.

Lemma release_released (g : Graph) : released (release g) = true.
Proof. reflexivity. Qed.

Lemma release_not_listening (g : Graph) : listening (release g) = false.
Proof. reflexivity. Qed.

(** Every tick in the log passed the minimum-duration test of the graph the
    log started from. *)
Lemma silence_log_min_duration (ticks : list Tick) (g : Graph) :
  Forall (fun t => startTime g + minRecordingDuration < clock1 t)
         (silence_log g ticks).2.
Proof.
  revert g. induction ticks as [|t ticks IH]; intros g; simpl.
  - constructor.
  - destruct (listening g); [|constructor].
    unfold audioprocess.
    destruct (silence_detected g t) eqn:Hd.
    + specialize (IH (release g)).
      destruct (silence_log (release g) ticks) as [g2 rest]. simpl in *.
      constructor; [by apply silence_detected_min_duration | done].
    + specialize (IH g).
      by destruct (silence_log g ticks) as [g2 rest].
Qed.

(** Once the callback ran the graph is released, so it runs at most once. *)
Lemma silence_log_at_most_once (ticks : list Tick) (g : Graph) :
  (length (silence_log g ticks).2 <= 1)%nat.
Proof.
  revert g. induction ticks as [|t ticks IH]; intros g; simpl; [lia|].
  destruct (listening g); [|simpl; lia].
  unfold audioprocess. destruct (silence_detected g t).
  - destruct ticks; simpl; lia.
  - specialize (IH g). by destruct (silence_log g ticks).
Qed.

(** [average === 0] holds exactly for a non-empty array that sums to zero. *)
Lemma average_is_zero_spec (array : list Z) :
  average_is_zero array = true <-> array <> [] /\ arraySum array = 0.
Proof.
  unfold average_is_zero, average.
  destruct array as [|b array]; [split; [done | by intros [? _]]|].
  cbn [length Nat.eqb].
  rewrite Qeq_bool_iff. unfold Qeq, Qdiv, Qmult, Qinv, inject_Z.
  rewrite Nat2Z.inj_succ.
  set (s := arraySum (b :: array)).
  destruct (Z.succ (Z.of_nat (length array))) eqn:E; try lia.
  cbn. split; [intros H; split; [done | lia] | intros [_ ->]; lia].
Qed.

Lemma silence_log_released (ticks : list Tick) (g : Graph) :
  listening g = false -> silence_log g ticks = (g, []).
Proof. intros H. destruct ticks; simpl; [done|]. by rewrite H. Qed.

(** The callback runs in the first tick that passes both tests of the graph
    as [detectSilence] made it; what the analyser reported in the ticks
    before has no part in it. *)
Lemma silence_log_first (pre post : list Tick) (t : Tick) (g : Graph) :
  listening g = true ->
  Forall (fun t' => silence_detected g t' = false) pre ->
  silence_detected g t = true ->
  silence_log g (pre ++ t :: post) = (release g, [t]).
Proof.
  intros Hl Hpre Ht. induction Hpre as [|t' pre Hd _ IH]; simpl; rewrite Hl.
  - unfold audioprocess. rewrite Ht.
    by rewrite silence_log_released.
  - unfold audioprocess. rewrite Hd. by rewrite IH.
Qed.

(** One detection loop on its own.  A recording started at [t0];
    [detectSilence] reads the clock for [startTime] no earlier than that.
    Whatever the analyser reports afterwards, all-zero bins from the first
    tick on included, the callback of that loop only ever runs in a tick
    whose clock reading is more than 2000 ms after [t0]. *)
Theorem silence_never_before_minimum_duration
    (t0 now1 now2 delay decibels : Z) (ticks : list Tick) :
  t0 <= now1 ->
  Forall (fun t => t0 + 2000 < clock1 t)
         (silence_log (detectSilence now1 now2 delay decibels) ticks).2.
Proof.
  intros Ht0.
  eapply Forall_impl;
    [apply (silence_log_min_duration ticks (detectSilence now1 now2 delay decibels))|].
  simpl. unfold minRecordingDuration. intros t Ht. lia.
Qed.

Lemma silence_never_before_minimum_duration_witness :
  Forall (fun t => 0 + 2000 < clock1 t)
         (silence_log (detectSilence 0 0 3000 (-45))
            [quiet 500; quiet 1900; quiet 2100; quiet 3001; quiet 3050]).2.
Proof.
  apply (silence_never_before_minimum_duration 0 0 0 3000 (-45)). lia.
Defined.

(** The callback does run: silence from the start stops the recording at the
    first tick after 3000 ms. *)
Example silence_from_start_fires :
  (silence_log (detectSilence 0 0 3000 (-45))
     [quiet 1000; quiet 2500; quiet 3001; quiet 3100]).2 = [quiet 3001].
Proof. reflexivity. Qed.

(** C1. Sound until 5000 ms and silence from 5100 ms on: the callback runs at
    5100 ms, in the first silent tick, not 3000 ms after the last sound.
    [lastSound] still holds the reading taken when the recording started. *)
Theorem silence_delay_counts_from_start :
  let g0 := detectSilence 0 0 3000 (-45) in
  let ticks := [loud 1000; loud 3500; loud 5000; quiet 5100; quiet 6000; quiet 8100] in
  (silence_log g0 ticks).2 = [quiet 5100]
  /\ lastSound (silence_log g0 ticks).1 = 0
  /\ forall (S : Type) (onSilence : S -> S) (t : Tick) (g : Graph) (s : S),
       lastSound (audioprocess onSilence t g s).1 = lastSound g.
Proof.
  split; [reflexivity|]. split; [reflexivity|].
  intros. apply audioprocess_timestamps.
Qed.

End SilenceDetection.

(** ** The recorder and its audio graph *)

Section Recorder.
Import VoiceCapture Scenario.

Lemma stopRecording_graphs (c : Capture) : graphs (stopRecording c) = graphs c.
Proof. unfold stopRecording. by destruct (mediaRecorderRef c) as [[]|]. Qed.

Lemma stopRecording_idle (c : Capture) :
  mediaRecorderRef c = Some recording ->
  mediaRecorderRef (stopRecording c) = Some inactive
  /\ isRecording (stopRecording c) = false.
Proof. unfold stopRecording. by intros ->. Qed.

Lemma onSilence_graphs (c : Capture) : graphs (onSilence c) = graphs c.
Proof.
  unfold onSilence. destruct (mediaRecorderRef c) as [[]|]; try done.
  apply stopRecording_graphs.
Qed.

(** The silence path: when the listener of graph [i] detects silence, the
    recorder is stopped and that graph is released. *)
Lemma auto_stop_releases (c : Capture) (i : nat) (g : Graph) (t : Tick) :
  graphs c !! i = Some g ->
  listening g = true ->
  silence_detected g t = true ->
  graphs (step c (AudioProcess i t)) !! i = Some (release g)
  /\ mediaRecorderRef (step c (AudioProcess i t)) <> Some recording.
Proof.
  intros Hi Hl Hd. simpl. rewrite Hi, Hl.
  rewrite (audioprocess_fires onSilence t g c Hd). simpl. split.
  - rewrite onSilence_graphs. apply list_lookup_insert_eq.
    by apply lookup_lt_Some in Hi.
  - unfold onSilence, stopRecording.
    destruct (mediaRecorderRef c) as [[]|] eqn:E; simpl; rewrite ?E; congruence.
Qed.

(** A failed acquisition allocates no audio graph. *)
Lemma failed_start_allocates_nothing (message : string) (c : Capture) :
  graphs (startRecording (Failed message) c) = graphs c.
Proof. reflexivity. Qed.

(** Seen from the recorder: a tick that takes it out of [recording] comes
    from a graph that is past its own minimum duration. *)
Lemma auto_stop_needs_min_duration (c : Capture) (i : nat) (t : Tick) :
  mediaRecorderRef c = Some recording ->
  mediaRecorderRef (step c (AudioProcess i t)) <> Some recording ->
  exists g, graphs c !! i = Some g
            /\ startTime g + minRecordingDuration < clock1 t.
Proof.
  intros Hrec Hstop. simpl in Hstop.
  destruct (graphs c !! i) as [g|] eqn:Hi; [|done].
  destruct (listening g); [|done].
  destruct (silence_detected g t) eqn:Hd.
  - exists g. split; [done | by apply silence_detected_min_duration].
  - by rewrite (audioprocess_idle onSilence t g c Hd) in Hstop.
Qed.

(** The graph a manual stop leaves behind goes on listening, and its
    callback stops whatever recorder is current: here a second recording,
    started at 10000 ms, is stopped 500 ms later by the first one's graph. *)
Example stale_graph_stops_next_recording :
  let c := run initial [ClickMic (Granted 0 0); ClickMic (Granted 900 900);
                        ClickMic (Granted 10000 10000)] in
  mediaRecorderRef c = Some recording
  /\ mediaRecorderRef (step c (AudioProcess 0 (quiet 10500))) = Some inactive.
Proof. split; reflexivity. Qed.

(** Two clicks before [getUserMedia] has answered the first start two
    recorders: two audio graphs, one recorder in the ref, and nothing
    uploaded. *)
Example two_clicks_start_two_recorders :
  let c := run initial [ClickMicAwait; ClickMicAwait;
                        MicAnswer (Granted 100 100); MicAnswer (Granted 120 120)] in
  length (graphs c) = 2%nat /\ uploads c = 0%nat
  /\ mediaRecorderRef c = Some recording.
Proof. repeat split. Qed.

(** A throw of [detectSilence] leaves the recorder recording with
    [isRecording] off. *)
Example detect_failure_leaves_recorder_running :
  let c := run initial [ClickMic (DetectFailed "no audio context")] in
  mediaRecorderRef c = Some recording /\ isRecording c = false.
Proof. split; reflexivity. Qed.

(** C2. A first recording is stopped by a click at 900 ms and a second one
    is started at 1500 ms, in silence throughout.  At 3001 ms the listener
    the first recording left behind passes its own two tests and its callback
    stops the second recording, 1501 ms after that one started; the second
    recording's own listener would not have fired in that tick. *)
Theorem stale_listener_stops_recording_early :
  let before := run initial second_recording in
  let after := step before (AudioProcess 0 (quiet 3001)) in
  (mediaRecorderRef before = Some recording /\ isRecording before = true)
  /\ graphs before !! 1%nat = Some (detectSilence 1500 1500 3000 (-45))
  /\ silence_detected (detectSilence 1500 1500 3000 (-45)) (quiet 3001) = false
  /\ (mediaRecorderRef after = Some inactive /\ isRecording after = false)
  /\ uploads after = 2%nat
  /\ 3001 < 1500 + minRecordingDuration.
Proof. repeat split. Qed.

(** C4. A recording stopped by a click on the microphone button: the
    recorder is inactive, and the media-stream source and the script
    processor are still connected, the audio context is still open and the
    listener is still registered. *)
Theorem manual_stop_keeps_audio_graph (now1 now2 : Z) (a : Acquire) :
  let c := run initial [ClickMic (Granted now1 now2); ClickMic a] in
  mediaRecorderRef c = Some inactive
  /\ isRecording c = false
  /\ graphs c = [detectSilence now1 now2 3000 (-45)]
  /\ Forall (fun g => released g = false /\ listening g = true) (graphs c).
Proof.
  simpl. repeat split; try reflexivity.
  repeat constructor.
Qed.

End Recorder.

(** ** The message log *)

Section MessageLog.
Import JS Chat Scenario.

Lemma play_audio_messages (data : value) (r : bool) (st : State) :
  messages (play_audio data r st) = messages st.
Proof.
  unfold play_audio.
  destruct (truthy (get_opt "audio" data) && enabled (voicePreferences st));
    [by destruct r | done].
Qed.

Lemma play_audio_socket (data : value) (r : bool) (st : State) :
  wsInstance (play_audio data r st) = wsInstance st.
Proof.
  unfold play_audio.
  destruct (truthy (get_opt "audio" data) && enabled (voicePreferences st));
    [by destruct r | done].
Qed.

(** A read of [data.type] throws exactly on [null] and [undefined]. *)
Lemma get_nullish (k : string) (data : value) :
  nullish data = true -> get k data = None.
Proof. by destruct data. Qed.

Lemma get_not_nullish (k : string) (data : value) :
  nullish data = false -> get k data = Some (get_opt k data).
Proof. by destruct data. Qed.

(** What one inbound event does to the log, whatever the event. *)
Lemma onmessage_messages (st : State) (ev : Inbound) :
  messages (onmessage st ev) = messages st ++ appended ev.
Proof.
  unfold onmessage, appended, malformed, error_event, message_of.
  destruct (parsed ev) as [data|]; simpl; [|by rewrite app_nil_r].
  destruct (nullish data) eqn:Hn.
  - rewrite (get_nullish _ _ Hn). simpl. by rewrite app_nil_r.
  - rewrite (get_not_nullish _ _ Hn). simpl.
    destruct (is_str "error" (get_opt "type" data)); simpl.
    + by rewrite app_nil_r.
    + by rewrite play_audio_messages.
Qed.

Lemma onmessage_run_messages (evs : list Inbound) (st : State) :
  messages (foldl onmessage st evs) = messages st ++ concat (map appended evs).
Proof.
  revert st. induction evs as [|ev evs IH]; intros st; simpl.
  - by rewrite app_nil_r.
  - rewrite IH, onmessage_messages. by rewrite <- app_assoc.
Qed.

Lemma handleSendMessage_messages (text : string) (now : Z) (st : State) :
  messages st `prefix_of` messages (handleSendMessage text now st).
Proof.
  unfold handleSendMessage, handleSendMessage_on.
  destruct (wsInstance st) as [ws|]; [|done].
  destruct (String.eqb (trim text) ""); [done|].
  destruct (send (outbound_message text st) ws); simpl; by apply prefix_app_r.
Qed.

(** No handler removes or reorders an entry of the log. *)
Lemma step_messages_prefix (st : State) (e : Event) :
  messages st `prefix_of` messages (step st e).
Proof.
  destruct e; simpl; try done.
  - rewrite onmessage_messages. by apply prefix_app_r.
  - apply handleSendMessage_messages.
  - apply handleSendMessage_messages.
  - unfold cleanup. by destruct (audioPlayerRef st).
Qed.

Lemma run_messages_prefix (es : list Event) (st : State) :
  messages st `prefix_of` messages (run st es).
Proof.
  revert st. induction es as [|e es IH]; intros st; simpl; [done|].
  etrans; [apply step_messages_prefix | apply IH].
Qed.

(** The entry [toMessage] builds carries every property of the event, and
    it is the only entry that does. *)
Lemma toMessage_entry (data : value) (now : Z) :
  entry_of_event data now (toMessage data now).
Proof.
  unfold entry_of_event, toMessage, or. simpl.
  repeat split. eexists. repeat split.
Qed.

Lemma entry_of_event_unique (data : value) (now : Z) (m : Message) :
  entry_of_event data now m -> m = toMessage data now.
Proof.
  destruct m as [ty c oc tc [ls lt ld lc] ts au an].
  unfold entry_of_event. simpl.
  intros (-> & -> & -> & -> & -> & -> & -> & -> & -> & -> & a & -> & Ha).
  destruct a as [sy cf ur re rc]. simpl in Ha.
  destruct Ha as (-> & -> & -> & -> & ->).
  reflexivity.
Qed.

Lemma message_of_entry (ev : Inbound) :
  malformed ev = false -> entry_of ev (message_of ev).
Proof.
  unfold malformed, entry_of, message_of.
  destruct (parsed ev) as [data|]; [|done].
  intros _. exists data. split; [done|]. apply toMessage_entry.
Qed.

(** C5. Inbound events that parse and are not server errors, delivered in
    the order [evs]: the log grows by exactly one entry per event, in that
    order, and each entry carries every property of its event (content,
    original and translated text, language, timestamp, audio, symptoms,
    confidence, urgency, emergency flag, recommendations) unchanged; and
    whatever else happens to the component, the entries already in the log
    stay where they are. *)
Theorem inbound_events_appended_in_order
    (st : State) (evs : list Inbound) (es : list Event) :
  Forall (fun ev => malformed ev = false /\ error_event ev = false) evs ->
  (exists new, messages (foldl onmessage st evs) = messages st ++ new
               /\ Forall2 entry_of evs new)
  /\ messages (foldl onmessage st evs) = messages st ++ map message_of evs
  /\ messages st `prefix_of` messages (run st es).
Proof.
  intros Hok.
  assert (messages (foldl onmessage st evs) = messages st ++ map message_of evs)
    as Heq.
  { rewrite onmessage_run_messages. f_equal.
    induction Hok as [|ev evs [Hm He] _ IH]; simpl; [done|].
    unfold appended at 1. rewrite Hm, He. simpl. by rewrite IH. }
  split; [|split; [exact Heq | apply run_messages_prefix]].
  exists (map message_of evs). split; [exact Heq|].
  clear Heq. induction Hok as [|ev evs [Hm He] _ IH]; simpl; constructor.
  - by apply message_of_entry.
  - exact IH.
Qed.

Lemma inbound_events_appended_in_order_witness :
  (exists new,
     messages (foldl onmessage (initial 0) [bot_event; spoken "rest" "QUJD" 20])
     = messages (initial 0) ++ new
     /\ Forall2 entry_of [bot_event; spoken "rest" "QUJD" 20] new)
  /\ messages (foldl onmessage (initial 0) [bot_event; spoken "rest" "QUJD" 20])
     = messages (initial 0) ++ map message_of [bot_event; spoken "rest" "QUJD" 20]
  /\ messages (initial 0) `prefix_of`
       messages (run (initial 0) [Connect; Open; SendText "hello" 3; Cleanup]).
Proof.
  apply (inbound_events_appended_in_order (initial 0)
           [bot_event; spoken "rest" "QUJD" 20]
           [Connect; Open; SendText "hello" 3; Cleanup]).
  repeat constructor.
Defined.

(** The entry of the headache answer, field by field. *)
Example headache_answer_entry :
  forall m, entry_of bot_event m ->
    type m = Str "bot" /\ content m = Str "..."
    /\ Language.source (language m) = Str "en"
    /\ Analysis.requiresEmergency <$> analysis m = Some (Bool false).
Proof.
  intros m (data & [= <-] & Hm).
  apply entry_of_event_unique in Hm. subst m. repeat split.
Qed.

(** C6. The headache scenario on a fresh component leaves three entries, not
    two: in front of the user's and the bot's entry there is still the entry
    [useState] was given, whose type is the empty string, neither ['user']
    nor ['bot'].  The bot entry's [requiresEmergency] is [false], as in the
    event. *)
Theorem headache_log_starts_with_stub :
  let final := run (initial 0) headache in
  messages final
  = [placeholder 0; userMessage "I have a headache" 5 (initial 0);
     message_of bot_event]
  /\ length (messages final) = 3%nat
  /\ type <$> messages final = [Str ""; Str "user"; Str "bot"]
  /\ content <$> messages final = [Str ""; Str "I have a headache"; Str "..."]
  /\ Analysis.requiresEmergency <$> analysis (message_of bot_event)
     = Some (Bool false).
Proof. repeat split. Qed.

(** So the log of the scenario does not consist of a user entry and a bot
    entry. *)
Lemma headache_log_is_not_two_entries :
  ~ (exists u b, messages (run (initial 0) headache) = [u; b]
                 /\ type u = Str "user" /\ type b = Str "bot").
Proof. intros (u & b & H & _). discriminate H. Qed.

(** In general: on a fresh component, one sent text and one received
    non-error event leave three entries: the initial one, the user's, the
    bot's; the bot entry's [requiresEmergency] is the event's
    [requires_emergency]. *)
Theorem send_then_receive_log
    (now t1 : Z) (text : string) (ev : Inbound) :
  trim text <> "" ->
  malformed ev = false ->
  error_event ev = false ->
  let final := run (initial now) [Connect; Open; SendText text t1; Receive ev] in
  messages final
  = [placeholder now; userMessage text t1 (initial now); message_of ev]
  /\ type (userMessage text t1 (initial now)) = Str "user"
  /\ type (message_of ev) = or (get_opt "type" (default Undefined (parsed ev))) (Str "bot")
  /\ Analysis.requiresEmergency <$> analysis (message_of ev)
     = Some (get_opt "requires_emergency" (default Undefined (parsed ev))).
Proof.
  intros Ht Hm He final. repeat split.
  subst final. unfold run. simpl foldl.
  rewrite onmessage_messages. unfold appended. rewrite Hm, He. simpl.
  unfold handleSendMessage, handleSendMessage_on. simpl.
  apply String.eqb_neq in Ht. rewrite Ht. reflexivity.
Qed.

Lemma send_then_receive_log_witness :
  let final := run (initial 0) headache in
  messages final
  = [placeholder 0; userMessage "I have a headache" 5 (initial 0); message_of bot_event]
  /\ type (userMessage "I have a headache" 5 (initial 0)) = Str "user"
  /\ type (message_of bot_event) = Str "bot"
  /\ Analysis.requiresEmergency <$> analysis (message_of bot_event)
     = Some (Bool false).
Proof.
  apply (send_then_receive_log 0 5 "I have a headache" bot_event);
    [discriminate | reflexivity | reflexivity].
Defined.

(** C8. A server error event and an event that does not parse: the log, the
    socket and the audio elements are as before; the error event's content
    is what [wsError] shows, the malformed one is reported on the console. *)
Theorem error_events_leave_log_unchanged (st : State) (ev : Inbound) :
  malformed ev = true \/ error_event ev = true ->
  let st' := onmessage st ev in
  messages st' = messages st
  /\ wsInstance st' = wsInstance st
  /\ audios st' = audios st
  /\ audioPlayerRef st' = audioPlayerRef st
  /\ (error_event ev = true ->
      wsError st' = get_opt "content" (default Undefined (parsed ev)))
  /\ (malformed ev = true ->
      wsError st' = Str "Error processing message"
      /\ console st' = console st ++ ["Error processing message:"]).
Proof.
  intros H st'. subst st'.
  unfold onmessage, malformed, error_event in *.
  destruct (parsed ev) as [data|]; simpl in *.
  - destruct (nullish data) eqn:Hn.
    + rewrite (get_nullish _ _ Hn). simpl.
      repeat split; try done.
      intros He. by destruct data.
    + rewrite (get_not_nullish _ _ Hn).
      destruct H as [H|H]; [done|]. rewrite H. simpl.
      repeat split; done.
  - repeat split; done.
Qed.

Lemma error_events_leave_log_unchanged_witness :
  let st := run (initial 0) [Connect; Open] in
  (messages (onmessage st server_error) = messages st
   /\ wsInstance (onmessage st server_error) = wsInstance st
   /\ wsError (onmessage st server_error) = Str "translation failed")
  /\ (messages (onmessage st garbage) = messages st
      /\ wsInstance (onmessage st garbage) = wsInstance st
      /\ console (onmessage st garbage) = ["Error processing message:"]).
Proof.
  intros st.
  pose proof (error_events_leave_log_unchanged st server_error
                (or_intror eq_refl)) as (Hm & Hw & _ & _ & He & _).
  pose proof (error_events_leave_log_unchanged st garbage
                (or_introl eq_refl)) as (Hm' & Hw' & _ & _ & _ & Hg).
  split.
  - split; [exact Hm|]. split; [exact Hw|]. exact (He eq_refl).
  - split; [exact Hm'|]. split; [exact Hw'|]. exact (proj2 (Hg eq_refl)).
Defined.

End MessageLog.

(** ** Playback *)

Section Playback.
Import JS Chat Scenario.

(** C3, as stated, fails: after two spoken answers two elements are playing,
    the first of them the one of message A. *)
Lemma two_playbacks_active :
  ~ (length (active_playbacks (run (initial 0) overlap)) <= 1)%nat.
Proof. vm_compute. lia. Qed.

Example first_playback_still_active :
  playing <$> audios (run (initial 0) overlap) !! 0%nat = Some true
  /\ audioPlayerRef (run (initial 0) overlap) = Some 1%nat.
Proof. split; reflexivity. Qed.

(** C3, amended. There is one playback handle, and an inbound message with
    audio (voice enabled) puts its new element behind it; no element that was
    playing is stopped by that, so the new playback is added to the active
    ones. *)
Theorem playback_handle_follows_latest_message (st : State) (ev : Inbound) :
  malformed ev = false ->
  error_event ev = false ->
  truthy (audio (message_of ev)) = true ->
  enabled (voicePreferences st) = true ->
  let st' := onmessage st ev in
  let el := {| src := audio (message_of ev);
               playbackRate := speed (voicePreferences st);
               playing := play_resolves ev |} in
  audios st' = audios st ++ [el]
  /\ audioPlayerRef st' = Some (length (audios st))
  /\ active_playbacks st'
     = active_playbacks st ++ (if play_resolves ev then [el] else []).
Proof.
  unfold malformed, error_event, message_of, onmessage.
  destruct (parsed ev) as [data|]; [|done]. simpl.
  intros Hn He Ha Hv. rewrite (get_not_nullish _ _ Hn), He.
  unfold play_audio. simpl. rewrite Ha, Hv. simpl.
  destruct (play_resolves ev); simpl; repeat split;
    unfold active_playbacks; simpl; rewrite filter_app; f_equal.
Qed.

Lemma playback_handle_follows_latest_message_witness :
  let st := run (initial 0) [Connect; Open; Receive (spoken "A" "QUFB" 10)] in
  let st' := onmessage st (spoken "B" "QkJC" 20) in
  length (audios st') = 2%nat
  /\ audioPlayerRef st' = Some 1%nat
  /\ length (active_playbacks st') = 2%nat.
Proof.
  intros st st'.
  pose proof (playback_handle_follows_latest_message st (spoken "B" "QkJC" 20)
                eq_refl eq_refl eq_refl eq_refl) as (H1 & H2 & H3).
  fold st' in H1, H2, H3.
  rewrite H1, H2, H3. repeat split.
Defined.

(** The player of a message bubble acts on its own element only: a click on
    one bubble leaves every other bubble's element as it was. *)
Lemma click_other_bubbles (i j : nat) (r : bool) (bubbles : list AudioControls.Controls) :
  i <> j -> AudioControls.click i r bubbles !! j = bubbles !! j.
Proof. intros Hne. unfold AudioControls.click. by apply list_lookup_alter_ne. Qed.

Example two_bubbles_play_together :
  let bubbles := [AudioControls.mount (Str "QUFB"); AudioControls.mount (Str "QkJC")] in
  length (AudioControls.active
            (AudioControls.click 1 true (AudioControls.click 0 true bubbles)))
  = 2%nat.
Proof. reflexivity. Qed.

End Playback.

(** ** The init event *)

Section Connection.
Import JS Chat Scenario.

Lemma onopen_sends_nothing (st : State) :
  sent_frames (onopen st) = sent_frames st.
Proof. unfold sent_frames. simpl. by destruct (wsInstance st). Qed.

(** What [WebSocketService.connect] does when its socket opens. *)
Lemma service_sends_init_on_open (options : gmap string value) :
  Api.onopen options Api.connect
  = Some {| readyState := OPEN; sent := [Api.init_event options] |}.
Proof. reflexivity. Qed.

(** C9. The connection ChatInterface opens: its [onopen] sends nothing, and
    the first frame on the socket is the user's message event; no init event
    precedes it. *)
Theorem chat_connection_sends_no_init :
  let st := run (initial 0) [Connect; Open] in
  let st' := step st (SendText "I have a headache" 5) in
  sent_frames st = []
  /\ sent_frames st' = [outbound_message "I have a headache" st]
  /\ Forall (fun frame => get_opt "type" frame = Str "message") (sent_frames st')
  /\ forall s : State, sent_frames (onopen s) = sent_frames s.
Proof.
  split; [reflexivity|]. split; [reflexivity|].
  split; [by repeat constructor | apply onopen_sends_nothing].
Qed.

End Connection.

(** ** Preferences *)

Section Preferences.
Import JS Prefs Scenario.

Lemma json_roundtrip_undefined_free (v : value) :
  v <> Undefined -> json_roundtrip v <> Undefined.
Proof. by destruct v. Qed.

(** Reading a property back from a stored object. *)
Lemma get_opt_roundtrip (k : string) (m : gmap string value) :
  get_opt k (json_roundtrip (Obj m)) = json_roundtrip (field k m).
Proof.
  unfold get_opt, field. simpl. rewrite lookup_omap.
  destruct (m !! k) as [v|]; simpl; [|done].
  by destruct v.
Qed.

Lemma field_insert_eq (k : string) (v : value) (s : Settings) :
  field k (<[k := v]> s) = v.
Proof. unfold field. by rewrite lookup_insert_eq. Qed.

Lemma field_insert_ne (k k' : string) (v : value) (s : Settings) :
  k <> k' -> field k' (<[k := v]> s) = field k' s.
Proof. intros Hne. unfold field. by rewrite lookup_insert_ne. Qed.

Ltac fields :=
  repeat (rewrite field_insert_eq || rewrite field_insert_ne by done).

Lemma lookup_setItem (v : value) (store : Storage) :
  setItem v store !! key = Some (json_roundtrip v).
Proof. unfold setItem. apply lookup_insert_eq. Qed.

(** Loading what was just stored: a stored object is truthy, so both readers
    apply it. *)
Lemma chat_load_setItem (m : gmap string value) (store : Storage) (prev : Settings) :
  chat_load (setItem (Obj m) store) prev = apply_saved (json_roundtrip (Obj m)) prev.
Proof. unfold chat_load. by rewrite lookup_setItem. Qed.

Lemma page_load_setItem (m : gmap string value) (store : Storage) (prev : Settings) :
  page_load (setItem (Obj m) store) prev = apply_saved (json_roundtrip (Obj m)) prev.
Proof. unfold page_load. by rewrite lookup_setItem. Qed.

(** The writer of ConsultationPage and either reader agree on the keys: a
    later load has every field the writer saved. *)
Lemma page_write_then_load
    (setting : string) (v : value) (prev fresh : Settings) (store : Storage) :
  let new := (handleSettingChange setting v prev store).1 in
  let store' := (handleSettingChange setting v prev store).2 in
  forall load, load = chat_load \/ load = page_load ->
  field "interfaceLanguage" (load store' fresh)
  = or (json_roundtrip (field "interfaceLanguage" new)) (Str "en")
  /\ field "preferredLanguage" (load store' fresh)
     = or (json_roundtrip (field "preferredLanguage" new)) (Str "en")
  /\ field "autoDetectLanguage" (load store' fresh)
     = coalesce (json_roundtrip (field "autoDetectLanguage" new)) (Bool true)
  /\ field "voice" (load store' fresh)
     = or (json_roundtrip (field "voice" new)) (field "voice" fresh).
Proof.
  intros new store' load Hload.
  assert (load store' fresh
          = apply_saved (json_roundtrip
              (Obj (<["interface" := field "interfaceLanguage" new]>
                   (<["preferred" := field "preferredLanguage" new]>
                   (<["autoDetect" := field "autoDetectLanguage" new]>
                   (<["voice" := field "voice" new]> ∅)))))) fresh) as ->.
  { subst store'. unfold handleSettingChange. cbn [snd].
    destruct Hload as [-> | ->];
      [apply chat_load_setItem | apply page_load_setItem]. }
  clearbody new. unfold apply_saved. rewrite !get_opt_roundtrip.
  fields. done.
Qed.

(** With plain values in the settings, the load returns them as written. *)
Example page_speed_change_survives :
  let s0 := page_load saved_store page_defaults in
  let voice := Obj (<["enabled" := Bool true]>
                    (<["gender" := Str "male"]>
                    (<["speed" := Num 2]> ∅))) in
  let store' := (handleSettingChange "voice" voice s0 saved_store).2 in
  let s1 := page_load store' page_defaults in
  field "voice" s1 = voice
  /\ field "interfaceLanguage" s1 = Str "hi"
  /\ field "preferredLanguage" s1 = Str "hi"
  /\ field "autoDetectLanguage" s1 = Bool false.
Proof. vm_compute. repeat split. Qed.

(** The blob ChatInterface writes has none of the keys the readers look up,
    except [voice]. *)
Lemma chat_write_then_load
    (lang : value) (prev fresh : Settings) (store : Storage) :
  prev !! "preferred" = None ->
  let store' := (handleLanguageChange lang prev store).2 in
  field "preferredLanguage" (chat_load store' fresh) = Str "en".
Proof.
  intros Hp store'. subst store'.
  unfold handleLanguageChange. cbn [snd].
  rewrite chat_load_setItem.
  unfold apply_saved. rewrite !get_opt_roundtrip.
  fields. unfold field. by rewrite Hp.
Qed.

(** The intake form saves the auto-detect choice under [auto_detect], which
    neither reader looks up: a choice of [false] loads as [true]. *)
Example intake_auto_detect_not_read_back :
  field "autoDetectLanguage"
    (chat_load (intake_save (Str "hi") (Bool false) ∅) chat_defaults)
  = Bool true.
Proof. reflexivity. Qed.

(** C7. Preferences were saved with interface and preferred language [hi],
    auto-detect off and a male voice at speed 1.5.  ChatInterface loads them,
    the user picks [ta] there, and a fresh ChatInterface loads again: it gets
    [en] for both languages and auto-detect on.  The change and two of the
    fields that were set before are gone; only [voice] is read back. *)
Theorem chat_language_change_lost_on_reload :
  let s0 := chat_load saved_store chat_defaults in
  let s1 := (handleLanguageChange (Str "ta") s0 saved_store).1 in
  let store1 := (handleLanguageChange (Str "ta") s0 saved_store).2 in
  let s2 := chat_load store1 chat_defaults in
  (field "interfaceLanguage" s0 = Str "hi"
   /\ field "preferredLanguage" s0 = Str "hi"
   /\ field "autoDetectLanguage" s0 = Bool false
   /\ field "voice" s0 = male_voice)
  /\ (field "interfaceLanguage" s1 = Str "hi"
      /\ field "preferredLanguage" s1 = Str "ta"
      /\ field "autoDetectLanguage" s1 = Bool false
      /\ field "voice" s1 = male_voice)
  /\ (field "interfaceLanguage" s2 = Str "en"
      /\ field "preferredLanguage" s2 = Str "en"
      /\ field "autoDetectLanguage" s2 = Bool true
      /\ field "voice" s2 = male_voice).
Proof. vm_compute. repeat split. Qed.

End Preferences.

(** ** The auto-detect flag on the wire *)

Section AutoDetect.
Import JS Api.

Lemma init_autoDetect_eq (options : gmap string value) :
  init_autoDetect options = or (option_ "autoDetect" options) (Bool true).
Proof.
  unfold init_autoDetect, init_event, get_opt. simpl.
  by simplify_map_eq.
Qed.

Lemma form_auto_detect_eq {B : Type} (audioBlob : B) (options : gmap string value) :
  form_auto_detect audioBlob options
  = Some (or (option_ "autoDetect" options) (Bool true)).
Proof.
  unfold form_auto_detect, translateSpeech.
  by destruct (truthy (option_ "sourceLanguage" options)).
Qed.

Lemma or_true_truthy (v : value) : truthy (or v (Bool true)) = true.
Proof. unfold or. by destruct (truthy v) eqn:E. Qed.

Lemma or_true_of_falsy (v : value) :
  truthy v = false -> or v (Bool true) = Bool true.
Proof. unfold or. by intros ->. Qed.

(** C10. Whatever else [options] holds: with [autoDetect] set to a boolean,
    [false] included, or not set at all, the init event's [autoDetect] and
    the form's [auto_detect] are [true]; and for any [options] at all neither
    of them is ever a falsy value. *)
Theorem auto_detect_always_sent_true
    {B : Type} (audioBlob : B) (options : gmap string value) (b : bool) :
  init_autoDetect (<["autoDetect" := Bool b]> options) = Bool true
  /\ form_auto_detect audioBlob (<["autoDetect" := Bool b]> options) = Some (Bool true)
  /\ init_autoDetect (delete "autoDetect" options) = Bool true
  /\ form_auto_detect audioBlob (delete "autoDetect" options) = Some (Bool true)
  /\ truthy (init_autoDetect options) = true
  /\ (truthy <$> form_auto_detect audioBlob options) = Some true.
Proof.
  rewrite !init_autoDetect_eq, !form_auto_detect_eq.
  unfold option_. rewrite lookup_insert_eq, lookup_delete_eq. simpl.
  rewrite or_true_truthy. by destruct b.
Qed.

Example disabled_auto_detect_sent_as_true :
  init_autoDetect (<["autoDetect" := Bool false]> (<["language" := Str "hi"]> ∅))
  = Bool true
  /\ form_auto_detect tt (<["autoDetect" := Bool false]> ∅) = Some (Bool true).
Proof. split; reflexivity. Qed.

End AutoDetect.

(* ===================================================================== *)
(** * Further properties of the modelled code *)
(* ===================================================================== *)

(** ** The recorder over arbitrary runs *)

Section RecorderRuns.
Import VoiceCapture Scenario.

Lemma startRecording_graph (a : Acquire) (c : Capture) (i : nat) (g : Graph) :
  graphs c !! i = Some g -> graphs (startRecording a c) !! i = Some g.
Proof.
  intros Hi. destruct a; simpl; try done. by apply lookup_app_l_Some.
Qed.

Lemma step_graph_monotone (c : Capture) (e : Event) (i : nat) (g : Graph) :
  graphs c !! i = Some g ->
  exists g', graphs (step c e) !! i = Some g' /\ (g' = g \/ g' = release g).
Proof.
  intros Hi. destruct e as [a | | a | j t]; simpl.
  - destruct (isRecording c).
    + rewrite stopRecording_graphs. eauto.
    + exists g. split; [|by left]. by apply startRecording_graph.
  - destruct (isRecording c).
    + rewrite stopRecording_graphs. eauto.
    + eauto.
  - destruct (pending c) as [|n]; [eauto|].
    exists g. split; [|by left]. by apply startRecording_graph.
  - destruct (graphs c !! j) as [gj|] eqn:Hj; [|eauto].
    destruct (listening gj); [|eauto].
    unfold audioprocess. destruct (silence_detected gj t); simpl.
    + rewrite onSilence_graphs.
      destruct (decide (j = i)) as [->|Hne].
      * exists (release gj). split.
        -- apply list_lookup_insert_eq. by apply lookup_lt_Some in Hi.
        -- right. congruence.
      * exists g. split; [|by left]. by rewrite list_lookup_insert_ne.
    + destruct (decide (j = i)) as [->|Hne].
      * exists g. split; [|by left].
        rewrite list_lookup_insert_eq; [congruence | by apply lookup_lt_Some in Hi].
      * exists g. split; [|by left]. by rewrite list_lookup_insert_ne.
Qed.

(** X3. No event removes or replaces an audio graph: after any run a graph is
    either exactly as it was or has been released, and a click on the
    microphone button changes none of them. *)
Theorem graphs_only_change_by_release
    (es : list Event) (c : Capture) (i : nat) (g : Graph) :
  graphs c !! i = Some g ->
  (exists g', graphs (run c es) !! i = Some g' /\ (g' = g \/ g' = release g))
  /\ forall a, graphs (step c (ClickMic a)) !! i = Some g.
Proof.
  intros Hi. split.
  - revert c g Hi. induction es as [|e es IH]; intros c g Hi; simpl; [eauto|].
    destruct (step_graph_monotone c e i g Hi) as (g1 & H1 & Hg1).
    destruct (IH _ _ H1) as (g2 & H2 & Hg2).
    exists g2. split; [done|].
    destruct Hg1 as [-> | ->]; [done|].
    right. by destruct Hg2 as [-> | ->].
  - intros a. simpl. destruct (isRecording c).
    + by rewrite stopRecording_graphs.
    + by apply startRecording_graph.
Qed.

Lemma graphs_only_change_by_release_witness :
  let c := run initial [ClickMic (Granted 0 0)] in
  (exists g', graphs (run c [ClickMic (Granted 900 900); AudioProcess 0 (quiet 3500)]) !! 0%nat
              = Some g'
              /\ (g' = detectSilence 0 0 3000 (-45)
                  \/ g' = release (detectSilence 0 0 3000 (-45))))
  /\ forall a, graphs (step c (ClickMic a)) !! 0%nat = Some (detectSilence 0 0 3000 (-45)).
Proof.
  intros c.
  apply (graphs_only_change_by_release
           [ClickMic (Granted 900 900); AudioProcess 0 (quiet 3500)] c 0).
  reflexivity.
Defined.

(** X4. The silence callback runs in the first tick that passes the two
    tests against the timestamps read when [detectSilence] was called,
    whatever the earlier ticks reported; the audio graph is released in that
    tick, and the callback does not run again however long the ticks go on. *)
Theorem silence_fires_at_first_detection
    (now1 now2 delay decibels : Z) (pre post : list Tick) (t : Tick) :
  let g := detectSilence now1 now2 delay decibels in
  Forall (fun t' => silence_detected g t' = false) pre ->
  silence_detected g t = true ->
  (silence_log g (pre ++ t :: post)).2 = [t]
  /\ released (silence_log g (pre ++ t :: post)).1 = true.
Proof.
  intros g Hpre Ht.
  by rewrite (silence_log_first pre post t g eq_refl Hpre Ht).
Qed.

Lemma silence_fires_at_first_detection_witness :
  let g := detectSilence 0 0 3000 (-45) in
  (silence_log g ([loud 1000; quiet 2500; loud 2900] ++ quiet 3200 :: [quiet 4000])).2
  = [quiet 3200]
  /\ released (silence_log g ([loud 1000; quiet 2500; loud 2900]
                              ++ quiet 3200 :: [quiet 4000])).1 = true.
Proof.
  apply (silence_fires_at_first_detection 0 0 3000 (-45)
           [loud 1000; quiet 2500; loud 2900] [quiet 4000] (quiet 3200));
    [by repeat constructor | reflexivity].
Defined.

Lemma arraySum_zero (array : list Z) (a : Z) :
  Forall (fun b => 0 <= b) array -> 0 <= a ->
  (foldl Z.add a array = 0 <-> a = 0 /\ Forall (fun b => b = 0) array).
Proof.
  intros Hpos. revert a. induction Hpos as [|b array Hb _ IH]; intros a Ha; simpl.
  - split; [by intros -> | by intros [-> _]].
  - rewrite IH by lia. split.
    + intros [H0 Hall]. split; [lia|]. constructor; [lia | done].
    + intros [-> Hall]. inversion_clear Hall. split; [lia | done].
Qed.

(** X5. For an array as the analyser fills it (no negative entry), the test
    [average === 0] succeeds exactly when the array is not empty and every
    bin is zero: one bin at 1 is sound, whatever [minDecibels] is. *)
Theorem average_zero_iff_all_bins_zero (array : list Z) :
  Forall (fun b => 0 <= b) array ->
  (average_is_zero array = true
   <-> array <> [] /\ Forall (fun b => b = 0) array).
Proof.
  intros Hpos. rewrite average_is_zero_spec. unfold arraySum.
  rewrite (arraySum_zero array 0 Hpos) by lia.
  split; [intros (? & _ & ?) | intros (? & ?)]; done.
Qed.

Lemma average_zero_iff_all_bins_zero_witness :
  (average_is_zero [0; 0; 1; 0] = true
   <-> [0; 0; 1; 0] <> [] /\ Forall (fun b => b = 0) [0; 0; 1; 0])
  /\ average_is_zero [0; 0; 1; 0] = false.
Proof.
  split; [|reflexivity].
  apply (average_zero_iff_all_bins_zero [0; 0; 1; 0]).
  repeat constructor; lia.
Defined.

End RecorderRuns.

(** ** Sending, and what reaches the socket *)

Section Sending.
Import JS Chat Scenario.

(** X6. [handleSendMessage] with a text that is empty or all white space, or
    before the socket exists, changes nothing at all: no log entry, no frame,
    no error, and the input field keeps its text. *)
Theorem blank_send_is_ignored (text : string) (now : Z) (st : State) :
  trim text = "" \/ wsInstance st = None ->
  handleSendMessage text now st = st.
Proof.
  intros H. unfold handleSendMessage, handleSendMessage_on.
  destruct (wsInstance st) as [ws|]; [|done].
  destruct H as [-> | H]; done.
Qed.

Lemma blank_send_is_ignored_witness :
  let st := run (initial 0) [Connect; Open; TypeInput "   "] in
  handleSendMessage (inputMessage st) 7 st = st
  /\ handleSendMessage "hello" 7 (initial 0) = initial 0.
Proof.
  intros st. split.
  - apply (blank_send_is_ignored (inputMessage st) 7 st). by left.
  - apply (blank_send_is_ignored "hello" 7 (initial 0)). by right.
Defined.

Lemma outbound_message_frame (text : string) (st : State) :
  trim text <> "" -> message_frame (outbound_message text st).
Proof. intros Ht. split; [reflexivity|]. by exists (trim text). Qed.

Lemma send_frames (frame : value) (ws ws' : Socket) :
  send frame ws = Some ws' ->
  sent ws' = sent ws \/ sent ws' = sent ws ++ [frame].
Proof.
  unfold send. destruct (readyState ws); intros [= <-]; simpl; auto.
Qed.

(** What each step does to the frames on the socket: a new socket has none,
    a send may add its frame, nothing else touches them. *)
Lemma step_sent_frames (st : State) (e : Event) :
  sent_frames (step st e) = sent_frames st
  \/ sent_frames (step st e) = []
  \/ exists text now,
       trim text <> ""
       /\ sent_frames (step st e) = sent_frames st ++ [outbound_message text st]
       /\ messages (step st e) = messages st ++ [userMessage text now st].
Proof.
  assert (forall text now,
    sent_frames (handleSendMessage text now st) = sent_frames st
    \/ sent_frames (handleSendMessage text now st) = []
    \/ exists text' now',
         trim text' <> ""
         /\ sent_frames (handleSendMessage text now st)
            = sent_frames st ++ [outbound_message text' st]
         /\ messages (handleSendMessage text now st)
            = messages st ++ [userMessage text' now' st]) as Hsend.
  { intros text now. unfold handleSendMessage, handleSendMessage_on, sent_frames.
    destruct (wsInstance st) as [ws|] eqn:Hws; rewrite ?Hws; [|by left].
    destruct (String.eqb (trim text) "") eqn:Ht; rewrite ?Hws; [by left|].
    apply String.eqb_neq in Ht.
    destruct (send (outbound_message text st) ws) as [ws'|] eqn:Hs; simpl.
    - destruct (send_frames _ _ _ Hs) as [-> | ->]; [by left|].
      right. right. by exists text, now.
    - rewrite Hws. by left. }
  destruct e; simpl; try (by left); try apply Hsend.
  - by right; left.
  - left. unfold sent_frames. simpl. by destruct (wsInstance st).
  - left. unfold onmessage, processing_failed.
    destruct (parsed ev) as [data|]; [|done].
    destruct (get "type" data) as [ty|]; [|done].
    destruct (is_str "error" ty); [done|].
    unfold sent_frames. by rewrite play_audio_socket.
  - left. unfold sent_frames. simpl. by destruct (wsInstance st).
  - left. unfold cleanup, sent_frames.
    destruct (audioPlayerRef st); simpl;
      destruct (wsInstance st) as [[[] fs]|]; done.
Qed.

(** X7. Whatever happens to a fresh component, every frame its socket has
    accepted is a message event with a non-empty text, and the log has a
    user entry with that text. *)
Theorem sent_frames_are_logged_messages (now : Z) (es : list Event) :
  Forall (fun frame => message_frame frame
                       /\ logged (run (initial now) es) frame)
         (sent_frames (run (initial now) es)).
Proof.
  assert (forall es st,
    Forall (fun frame => message_frame frame /\ logged st frame) (sent_frames st) ->
    Forall (fun frame => message_frame frame /\ logged (run st es) frame)
           (sent_frames (run st es))) as Hrun.
  { clear es. induction es as [|e es IH]; intros st Hst; simpl; [done|].
    apply IH.
    assert (forall frame, logged st frame -> logged (step st e) frame) as Hmono.
    { intros frame (m & Hm & Hty & Hc). exists m. split; [|done].
      destruct (step_messages_prefix st e) as [k ->].
      apply elem_of_app. by left. }
    destruct (step_sent_frames st e) as [-> | [-> | (text & t1 & Ht & -> & Hmsg)]].
    - eapply Forall_impl; [exact Hst|]. intros frame [? ?]. auto.
    - constructor.
    - apply Forall_app. split.
      + eapply Forall_impl; [exact Hst|]. intros frame [? ?]. auto.
      + constructor; [|constructor]. split.
        * by apply outbound_message_frame.
        * exists (userMessage text t1 st). rewrite Hmsg. split.
          -- apply elem_of_app. right. by apply list_elem_of_singleton.
          -- split; reflexivity. }
  apply Hrun. constructor.
Qed.

(** X8. On any platform, a text sent while the socket is not open is still
    appended to the log, and no frame reaches the socket.  While the socket
    is connecting the failure is reported with the platform's text and the
    input keeps its text; once it is closing or closed nothing is reported
    and the input is cleared. *)
Theorem send_on_unopened_socket
    (p : Platform) (text : string) (now : Z) (st : State) (ws : Socket) :
  wsInstance st = Some ws ->
  trim text <> "" ->
  readyState ws <> OPEN ->
  let st' := handleSendMessage_on p text now st in
  messages st' = messages st ++ [userMessage text now st]
  /\ sent_frames st' = sent_frames st
  /\ (readyState ws = CONNECTING ->
      wsError st' = Str ("Failed to send message: " +:+ invalid_state p)
      /\ inputMessage st' = inputMessage st)
  /\ (readyState ws <> CONNECTING ->
      wsError st' = wsError st /\ inputMessage st' = "").
Proof.
  intros Hws Ht Hr. unfold handleSendMessage_on, sent_frames. rewrite Hws.
  apply String.eqb_neq in Ht. rewrite Ht. unfold send.
  destruct ws as [r fs]. simpl in *.
  destruct r; simpl; rewrite ?Hws; repeat split; try done.
Qed.

Lemma send_on_unopened_socket_witness :
  let st := run (initial 0) [Connect; TypeInput "are you there"] in
  let st' := handleSendMessage_on chromium "are you there" 30 st in
  messages st' = messages st ++ [userMessage "are you there" 30 st]
  /\ sent_frames st' = []
  /\ wsError st'
     = Str ("Failed to send message: Failed to execute 'send' on 'WebSocket': "
            +:+ "Still in CONNECTING state.")
  /\ inputMessage st' = "are you there".
Proof.
  intros st st'.
  assert (trim "are you there" <> "") as Ht by discriminate.
  assert (CONNECTING <> OPEN) as Hr by discriminate.
  pose proof (send_on_unopened_socket chromium "are you there" 30 st
                {| readyState := CONNECTING; sent := [] |} eq_refl Ht Hr)
    as (Hm & Hs & Hconnecting & _).
  destruct (Hconnecting eq_refl) as [He Hi].
  split; [exact Hm|]. split; [exact Hs|]. split; [exact He | exact Hi].
Defined.

(** X9. The clean-up of the connection effect pauses the element behind
    [audioPlayerRef] and no other, and leaves the log and the accepted frames
    alone; elements started by earlier messages go on playing.  A socket
    that is closed already stays closed, any other is closing afterwards. *)
Theorem cleanup_pauses_only_the_handle (st : State) (j : nat) :
  audioPlayerRef st <> Some j ->
  audios (cleanup st) !! j = audios st !! j
  /\ (forall i, audioPlayerRef st = Some i ->
                playing <$> audios (cleanup st) !! i
                = (fun _ => false) <$> audios st !! i)
  /\ messages (cleanup st) = messages st
  /\ readyState <$> wsInstance (cleanup st)
     = (fun ws => match readyState ws with
                  | CLOSED => CLOSED
                  | _ => CLOSING
                  end) <$> wsInstance st
  /\ sent_frames (cleanup st) = sent_frames st.
Proof.
  intros Hj. unfold cleanup, sent_frames.
  destruct (audioPlayerRef st) as [i|] eqn:Hi; simpl.
  - split; [|split; [|split; [|split]]].
    + unfold pause. apply list_lookup_alter_ne. congruence.
    + intros i' [= <-]. unfold pause. rewrite list_lookup_alter_eq.
      by destruct (audios st !! i).
    + done.
    + by destruct (wsInstance st) as [[[] fs]|].
    + by destruct (wsInstance st) as [[[] fs]|].
  - split; [done|]. split; [done|]. split; [done|].
    split; by destruct (wsInstance st) as [[[] fs]|].
Qed.

Lemma cleanup_pauses_only_the_handle_witness :
  let st := run (initial 0) overlap in
  playing <$> audios (cleanup st) !! 0%nat = Some true
  /\ playing <$> audios (cleanup st) !! 1%nat = Some false
  /\ readyState <$> wsInstance (cleanup st) = Some CLOSING
  /\ readyState <$> wsInstance (cleanup (cleanup (onclose st))) = Some CLOSED.
Proof.
  intros st.
  destruct (cleanup_pauses_only_the_handle st 0) as (H0 & H1 & _ & Hr & _);
    [discriminate|].
  split; [|split; [|split]].
  - rewrite H0. reflexivity.
  - rewrite (H1 1%nat eq_refl). reflexivity.
  - rewrite Hr. reflexivity.
  - reflexivity.
Defined.

End Sending.

(** ** More on the preference blob *)

Section MorePreferences.
Import JS Prefs Scenario.

Ltac read_fields :=
  repeat (rewrite field_insert_eq || rewrite field_insert_ne by done).

(** A value that came out of storage reads back as itself, and so do its
    properties. *)
Lemma stored_field_stable (k : string) (m : gmap string value) :
  json_roundtrip (Obj m) = Obj m ->
  json_roundtrip (field k m) = field k m.
Proof. intros H. rewrite <- get_opt_roundtrip, H. reflexivity. Qed.

(** The two loading effects after [handleSettingChange], with settings whose
    four saved fields are plain JSON values, truthy languages and voice and a
    set auto-detect flag: either returns exactly those four fields. *)
Lemma load_effects_after_setting_change
    (setting : string) (v : value) (prev fresh : Settings) (store : Storage) :
  let new := (handleSettingChange setting v prev store).1 in
  let store' := (handleSettingChange setting v prev store).2 in
  json_roundtrip (field "interfaceLanguage" new) = field "interfaceLanguage" new ->
  json_roundtrip (field "preferredLanguage" new) = field "preferredLanguage" new ->
  json_roundtrip (field "autoDetectLanguage" new) = field "autoDetectLanguage" new ->
  json_roundtrip (field "voice" new) = field "voice" new ->
  truthy (field "interfaceLanguage" new) = true ->
  truthy (field "preferredLanguage" new) = true ->
  nullish (field "autoDetectLanguage" new) = false ->
  truthy (field "voice" new) = true ->
  Forall (fun k => field k (chat_load store' fresh) = field k new
                   /\ field k (page_load store' fresh) = field k new)
         ["interfaceLanguage"; "preferredLanguage"; "autoDetectLanguage"; "voice"].
Proof.
  intros new store' S1 S2 S3 S4 Hi Hp Ha Hv.
  destruct (page_write_then_load setting v prev fresh store chat_load (or_introl eq_refl))
    as (C1 & C2 & C3 & C4).
  destruct (page_write_then_load setting v prev fresh store page_load (or_intror eq_refl))
    as (P1 & P2 & P3 & P4).
  fold new in C1, C2, C3, C4, P1, P2, P3, P4.
  fold store' in C1, C2, C3, C4, P1, P2, P3, P4.
  repeat constructor;
    first [rewrite C1 | rewrite C2 | rewrite C3 | rewrite C4
          | rewrite P1 | rewrite P2 | rewrite P3 | rewrite P4];
    rewrite ?S1, ?S2, ?S3, ?S4; unfold or, coalesce;
    by rewrite ?Hi, ?Hp, ?Ha, ?Hv.
Qed.

(** The status effect writes the two languages and nothing else. *)
Lemma status_effect_other_fields (result : option value) (prev : Settings)
    (k : string) :
  k <> "preferredLanguage" -> k <> "interfaceLanguage" ->
  field k (status_effect result prev) = field k prev.
Proof.
  intros H1 H2. unfold status_effect.
  destruct result as [r|]; [|done].
  destruct (truthy r && truthy (get_opt "language_preferences" r)); [|done].
  rewrite !field_insert_ne by done. reflexivity.
Qed.

(** X10. ConsultationPage: after [handleSettingChange], with settings whose
    four saved fields are plain JSON values, truthy languages and voice and a
    set auto-detect flag, the page is mounted again and its status request
    gives [result].  The page then has the saved auto-detect flag and voice.
    It has the saved languages when the request failed or its answer has no
    language preferences; otherwise each language is the one of the answer,
    and the saved one only where the answer's is missing or empty.
    ChatInterface's own loading effect returns the four saved fields. *)
Theorem page_reload_settings
    (setting : string) (v : value) (prev fresh : Settings) (store : Storage)
    (result : option value) :
  let new := (handleSettingChange setting v prev store).1 in
  let store' := (handleSettingChange setting v prev store).2 in
  json_roundtrip (field "interfaceLanguage" new) = field "interfaceLanguage" new ->
  json_roundtrip (field "preferredLanguage" new) = field "preferredLanguage" new ->
  json_roundtrip (field "autoDetectLanguage" new) = field "autoDetectLanguage" new ->
  json_roundtrip (field "voice" new) = field "voice" new ->
  truthy (field "interfaceLanguage" new) = true ->
  truthy (field "preferredLanguage" new) = true ->
  nullish (field "autoDetectLanguage" new) = false ->
  truthy (field "voice" new) = true ->
  let reloaded := page_reload store' result fresh in
  let answered :=
    match result with
    | Some r => truthy r && truthy (get_opt "language_preferences" r)
    | None => false
    end in
  let preferences :=
    get_opt "language_preferences" (default Undefined result) in
  field "autoDetectLanguage" reloaded = field "autoDetectLanguage" new
  /\ field "voice" reloaded = field "voice" new
  /\ field "preferredLanguage" reloaded
     = (if answered
        then or (get_opt "preferred" preferences) (field "preferredLanguage" new)
        else field "preferredLanguage" new)
  /\ field "interfaceLanguage" reloaded
     = (if answered
        then or (get_opt "interface" preferences) (field "interfaceLanguage" new)
        else field "interfaceLanguage" new)
  /\ Forall (fun k => field k (chat_load store' fresh) = field k new)
            ["interfaceLanguage"; "preferredLanguage"; "autoDetectLanguage";
             "voice"].
Proof.
  intros new store' S1 S2 S3 S4 Hi Hp Ha Hv reloaded answered preferences.
  pose proof (load_effects_after_setting_change setting v prev fresh store
                S1 S2 S3 S4 Hi Hp Ha Hv) as Hload.
  fold new store' in Hload.
  apply Forall_cons in Hload as [[Ci Pi] Hload].
  apply Forall_cons in Hload as [[Cp Pp] Hload].
  apply Forall_cons in Hload as [[Ca Pa] Hload].
  apply Forall_cons in Hload as [[Cv Pv] _].
  subst reloaded. unfold page_reload.
  split; [by rewrite status_effect_other_fields|].
  split; [by rewrite status_effect_other_fields|].
  split; [|split; [|by repeat constructor]].
  - subst answered preferences. unfold status_effect.
    destruct result as [r|]; simpl; [|done].
    destruct (truthy r && truthy (get_opt "language_preferences" r)); [|done].
    rewrite field_insert_eq. by rewrite Pp.
  - subst answered preferences. unfold status_effect.
    destruct result as [r|]; simpl; [|done].
    destruct (truthy r && truthy (get_opt "language_preferences" r)); [|done].
    rewrite field_insert_ne by done. rewrite field_insert_eq. by rewrite Pi.
Qed.

Lemma page_reload_settings_witness :
  let s0 := page_load saved_store page_defaults in
  let new := (handleSettingChange "preferredLanguage" (Str "ta") s0 saved_store).1 in
  let store' := (handleSettingChange "preferredLanguage" (Str "ta") s0 saved_store).2 in
  field "preferredLanguage" new = Str "ta"
  /\ field "interfaceLanguage" new = Str "hi"
  /\ field "preferredLanguage" (page_reload store' (Some status_body) page_defaults)
     = Str "en"
  /\ field "interfaceLanguage" (page_reload store' (Some status_body) page_defaults)
     = Str "en"
  /\ field "autoDetectLanguage" (page_reload store' (Some status_body) page_defaults)
     = Bool false
  /\ field "voice" (page_reload store' (Some status_body) page_defaults)
     = male_voice
  /\ field "preferredLanguage" (chat_load store' chat_defaults) = Str "ta".
Proof.
  intros s0 new store'.
  split; [reflexivity|]. split; [reflexivity|].
  destruct (page_reload_settings "preferredLanguage" (Str "ta")
              s0 page_defaults saved_store (Some status_body))
    as (Ha & Hv & Hp & Hi & _); try reflexivity.
  split; [exact Hp|]. split; [exact Hi|]. split; [exact Ha|].
  split; [exact Hv|]. reflexivity.
Defined.

(** X11. ConsultationSummary: saving a new language merges it into the
    stored object.  A reload then has the new preferred language and, for
    interface language, auto-detect and voice, what a reload before the
    change had. *)
Theorem summary_language_change_keeps_other_fields
    (newLanguage : value) (m : gmap string value) (store : Storage)
    (fresh : Settings) :
  store !! key = Some (Obj m) ->
  json_roundtrip (Obj m) = Obj m ->
  let store' := summary_save_language newLanguage store in
  field "preferredLanguage" (chat_load store' fresh)
  = or (json_roundtrip newLanguage) (Str "en")
  /\ Forall (fun k => field k (chat_load store' fresh)
                      = field k (chat_load store fresh))
            ["interfaceLanguage"; "autoDetectLanguage"; "voice"]
  /\ page_load store' fresh = chat_load store' fresh.
Proof.
  intros Hs Hm store'.
  assert (store' = setItem (Obj (<["preferred" := newLanguage]> m)) store) as ->.
  { subst store'. unfold summary_save_language. by rewrite Hs. }
  rewrite chat_load_setItem, page_load_setItem.
  assert (chat_load store fresh = apply_saved (Obj m) fresh) as ->.
  { unfold chat_load. by rewrite Hs. }
  unfold apply_saved. rewrite !get_opt_roundtrip. read_fields.
  rewrite !(stored_field_stable _ m Hm).
  split; [done|]. split; [|done].
  repeat constructor; read_fields; reflexivity.
Qed.

Lemma summary_language_change_keeps_other_fields_witness :
  let store' := summary_save_language (Str "ta") saved_store in
  field "preferredLanguage" (chat_load store' chat_defaults) = Str "ta"
  /\ field "interfaceLanguage" (chat_load store' chat_defaults) = Str "hi"
  /\ field "autoDetectLanguage" (chat_load store' chat_defaults) = Bool false
  /\ field "voice" (chat_load store' chat_defaults) = male_voice.
Proof.
  intros store'.
  destruct (summary_language_change_keeps_other_fields (Str "ta")
              (<["interface" := Str "hi"]>
               (<["preferred" := Str "hi"]>
               (<["autoDetect" := Bool false]>
               (<["voice" := male_voice]> ∅))))
              saved_store chat_defaults eq_refl eq_refl) as (Hp & Hrest & _).
  fold store' in Hp, Hrest.
  inversion_clear Hrest as [|? ? Hi Hrest'].
  inversion_clear Hrest' as [|? ? Ha Hrest''].
  inversion_clear Hrest'' as [|? ? Hv _].
  rewrite Hp, Hi, Ha, Hv. repeat split.
Defined.

(** X12. ChatInterface: [handleAutoDetectChange] sets the flag for the
    running session and keeps the other settings, but what it stores is not
    read back: a fresh ChatInterface has auto-detect on whatever was chosen
    (only the voice object is found again). *)
Theorem chat_auto_detect_change_not_read_back
    (v : value) (prev fresh : Settings) (store : Storage) :
  prev !! "autoDetect" = None ->
  let new := (handleAutoDetectChange v prev store).1 in
  let store' := (handleAutoDetectChange v prev store).2 in
  field "autoDetectLanguage" new = v
  /\ (forall k, k <> "autoDetectLanguage" -> field k new = field k prev)
  /\ field "autoDetectLanguage" (chat_load store' fresh) = Bool true
  /\ field "voice" (chat_load store' fresh)
     = or (json_roundtrip (field "voice" prev)) (field "voice" fresh).
Proof.
  intros Hk new store'. subst new store'.
  unfold handleAutoDetectChange. cbn [fst snd].
  rewrite chat_load_setItem. unfold apply_saved.
  rewrite !get_opt_roundtrip. read_fields.
  split; [done|]. split.
  - intros k Hne. by rewrite field_insert_ne.
  - split; [|done]. unfold field. by rewrite Hk.
Qed.

Lemma chat_auto_detect_change_not_read_back_witness :
  let new := (handleAutoDetectChange (Bool false) chat_defaults ∅).1 in
  let store' := (handleAutoDetectChange (Bool false) chat_defaults ∅).2 in
  field "autoDetectLanguage" new = Bool false
  /\ field "autoDetectLanguage" (chat_load store' chat_defaults) = Bool true.
Proof.
  intros new store'.
  destruct (chat_auto_detect_change_not_read_back (Bool false)
              chat_defaults chat_defaults ∅ eq_refl) as (H1 & _ & H2 & _).
  split; [exact H1 | exact H2].
Defined.

(** X13. The intake form: a reload finds the chosen language as interface
    and preferred language, never the auto-detect choice (stored under a key
    no reader looks up), and has no stored voice to apply. *)
Theorem intake_choice_on_reload
    (lang enable_auto_detect : value) (store : Storage) (fresh : Settings) :
  let s := chat_load (intake_save lang enable_auto_detect store) fresh in
  page_load (intake_save lang enable_auto_detect store) fresh = s
  /\ field "interfaceLanguage" s = or (json_roundtrip lang) (Str "en")
  /\ field "preferredLanguage" s = or (json_roundtrip lang) (Str "en")
  /\ field "autoDetectLanguage" s = Bool true
  /\ field "voice" s = field "voice" fresh.
Proof.
  intros s. subst s. unfold intake_save.
  rewrite chat_load_setItem, page_load_setItem. unfold apply_saved.
  rewrite !get_opt_roundtrip. read_fields.
  split; [done|]. repeat split.
Qed.

End MorePreferences.

(** ** What a log entry shows *)

Section Bubbles.
Import JS Chat Bubble.

(** X14. Every entry [handleSendMessage] appends is shown by MessageBubble
    as a user bubble with a translation: [hasTranslation] holds, because the
    entry has no [originalContent], and with "show original" on the bubble
    displays [undefined].  It never carries the emergency badge. *)
Theorem user_entries_count_as_translated (text : string) (now : Z) (st : State) :
  let m := userMessage text now st in
  isUser m = true
  /\ hasTranslation m = true
  /\ displayText false m = Str (trim text)
  /\ displayText true m = Undefined
  /\ emergencyBadge m = false.
Proof. repeat split. Qed.

Lemma Qle_bool_trans_true (a x y : Q) :
  Qle_bool a x = true -> (x <= y)%Q -> Qle_bool a y = true.
Proof.
  rewrite !Qle_bool_iff. intros H1 H2. by apply Qle_trans with x.
Qed.

(** X15. ConfidenceIndicator: a higher score never gets a lower band, and
    the words of the tooltip always name the band of the colour, for every
    type of indicator. *)
Theorem confidence_bands_monotone_and_consistent
    (s1 s2 : Q) (type : string) (showLanguages : bool) (names : string * string) :
  (s1 <= s2)%Q ->
  (band_rank (getConfidenceColor s1) <= band_rank (getConfidenceColor s2))%nat
  /\ iconBand s2 = getConfidenceColor s2
  /\ valueColor s2 = getConfidenceColor s2
  /\ exists rest,
       getTooltipText s2 type showLanguages names
       = match getConfidenceColor s2 with
         | success => "High confidence"
         | warning => "Moderate confidence"
         | error => "Low confidence"
         end +:+ rest.
Proof.
  intros Hle. split; [|split; [done|split; [done|]]].
  - unfold getConfidenceColor.
    destruct (Qle_bool 70 s1) eqn:H70.
    + by rewrite (Qle_bool_trans_true 70 s1 s2 H70 Hle).
    + destruct (Qle_bool 40 s1) eqn:H40.
      * rewrite (Qle_bool_trans_true 40 s1 s2 H40 Hle).
        destruct (Qle_bool 70 s2); simpl; lia.
      * simpl. lia.
  - unfold getTooltipText, baseText, getConfidenceColor.
    destruct (String.eqb type "translation" && showLanguages);
      [|destruct (String.eqb type "medical")];
      destruct (Qle_bool 70 s2); try destruct (Qle_bool 40 s2); eauto.
Qed.

Lemma confidence_bands_monotone_and_consistent_witness :
  (band_rank (getConfidenceColor 1) <= band_rank (getConfidenceColor 55))%nat
  /\ getConfidenceColor 1 = error
  /\ getTooltipText 55 "medical" false ("", "") = "Moderate confidence in medical analysis".
Proof.
  destruct (confidence_bands_monotone_and_consistent 1 55 "medical" false ("", ""))
    as (H & _); [done|].
  split; [exact H|]. split; reflexivity.
Defined.

End Bubbles.

(** ** [handleWsMessage] and the speech-to-text upload *)

Section VoiceUpload.
Import JS Chat ChatMore.

Lemma or_truthy_r (a b : value) : truthy b = true -> truthy (or a b) = true.
Proof. intros Hb. unfold or. by destruct (truthy a) eqn:Ha. Qed.

(** X16. [handleWsMessage] appends one entry at the end of the log, and with
    a truthy preferred language that entry never has a falsy language source,
    target or confidence, nor a falsy analysis confidence: a confidence of 0
    in the event is stored as 1. *)
Theorem handleWsMessage_fills_defaults
    (data : value) (now : Z) (preferredLanguage : value) (st : State) :
  nullish data = false ->
  truthy preferredLanguage = true ->
  let m := messageData data now preferredLanguage in
  messages (handleWsMessage data now preferredLanguage st) = messages st ++ [m]
  /\ truthy (Language.source (language m)) = true
  /\ truthy (Language.target (language m)) = true
  /\ truthy (Language.confidence (language m)) = true
  /\ (Analysis.confidence <$> analysis m) = Some
       (or (get_opt "overall" (get_opt "confidence_scores" data)) (Num 1))
  /\ (get_opt "confidence" (get_opt "language" data) = Num 0 ->
      Language.confidence (language m) = Num 1).
Proof.
  intros Hn Hp m. unfold handleWsMessage.
  rewrite (get_not_nullish _ _ Hn). subst m. simpl.
  repeat split; try (by apply or_truthy_r).
  by intros ->.
Qed.

Lemma handleWsMessage_fills_defaults_witness :
  let data := Obj (<["content" := Str "Rest and drink water"]>
                   (<["language" := Obj (<["confidence" := Num 0]> ∅)]> ∅)) in
  let m := messageData data 40 (Str "hi") in
  messages (handleWsMessage data 40 (Str "hi") (initial 0))
  = messages (initial 0) ++ [m]
  /\ Language.source (language m) = Str "hi"
  /\ Language.confidence (language m) = Num 1.
Proof.
  intros data m.
  destruct (handleWsMessage_fills_defaults data 40 (Str "hi") (initial 0)
              eq_refl eq_refl) as (H & _ & _ & _ & _ & Hc).
  split; [exact H|]. split; [reflexivity | exact (Hc eq_refl)].
Defined.

(** X17. On any platform, a speech-to-text request that fails in any way
    (no connection, an error status, a body that is not JSON or is [null], a
    text that is not a string) leaves the log and the socket as they were,
    reports the failure in [wsError] with the text of the error, asks for no
    language change, and ends with [isProcessing] off. *)
Theorem failed_upload_leaves_log_unchanged
    (p : Platform) (r : Response) (now : Z) (s : Session) (message : string) :
  failure_on p r = Some message ->
  let s' := (onstop_on p r now s).1 in
  isProcessing s' = false
  /\ messages (chat s') = messages (chat s)
  /\ wsInstance (chat s') = wsInstance (chat s)
  /\ wsError (chat s') = Str ("Failed to process voice input: " +:+ message)
  /\ (onstop_on p r now s).2 = None.
Proof.
  unfold onstop_on, onstop_chat_on, failure_on.
  destruct r as [m | n | m | data]; try (intros [= <-]; by repeat split).
  destruct (get "text" data) as [text|]; [|intros [= <-]; by repeat split].
  destruct text; try done; simpl;
    try (intros [= <-]; by repeat split).
  - destruct b; [intros [= <-]; by repeat split | done].
  - destruct (negb (Qeq_bool q 0)); [intros [= <-]; by repeat split | done].
Qed.

Lemma failed_upload_leaves_log_unchanged_witness :
  let s := {| chat := run (initial 0) [Connect; Open]; isProcessing := true |} in
  let s' := (onstop_on Scenario.chromium (Body Null) 50 s).1 in
  isProcessing s' = false
  /\ messages (chat s') = messages (chat s)
  /\ wsError (chat s')
     = Str ("Failed to process voice input: "
            +:+ "Cannot read properties of null (reading 'text')").
Proof.
  intros s s'.
  destruct (failed_upload_leaves_log_unchanged Scenario.chromium (Body Null) 50 s
              "Cannot read properties of null (reading 'text')" eq_refl)
    as (H1 & H2 & _ & H4 & _).
  split; [exact H1|]. split; [exact H2 | exact H4].
Defined.

(** X18. A recognised text goes the way of a typed one: the chat is left as
    [handleSendMessage] with that text leaves it, so the entry carries the
    language that was selected before the answer came.  A language change is
    asked for only with auto-detect on and a non-empty text; an empty text
    changes nothing, whatever language the answer reports. *)
Theorem recognised_text_is_sent_as_typed
    (data : value) (text : string) (now : Z) (s : Session) :
  get "text" data = Some (Str text) ->
  let s' := (onstop (Body data) now s).1 in
  chat s' = handleSendMessage text now (chat s)
  /\ isProcessing s' = false
  /\ ((onstop (Body data) now s).2 <> None ->
      autoDetectLanguage (chat s) = true /\ text <> "")
  /\ (text = "" -> chat s' = chat s /\ (onstop (Body data) now s).2 = None).
Proof.
  intros Ht. unfold onstop, onstop_on, onstop_chat_on. rewrite Ht. simpl.
  destruct (String.eqb text "") eqn:He; simpl.
  - apply String.eqb_eq in He. subst text. repeat split; try done.
    unfold handleSendMessage, handleSendMessage_on. by destruct (wsInstance (chat s)).
  - apply String.eqb_neq in He. repeat split; try done.
    destruct (truthy (get_opt "detected" (get_opt "language" data))
              && autoDetectLanguage (chat s)) eqn:Hd; [|done].
    by apply andb_prop in Hd as [_ ->].
Qed.

Lemma recognised_text_is_sent_as_typed_witness :
  let data := Obj (<["text" := Str "mujhe bukhar hai"]>
                   (<["language" := Obj (<["detected" := Bool true]>
                                         (<["code" := Str "hi"]> ∅))]> ∅)) in
  let s := {| chat := run (initial 0) [Connect; Open]; isProcessing := true |} in
  chat (onstop (Body data) 60 s).1
  = handleSendMessage "mujhe bukhar hai" 60 (chat s)
  /\ (onstop (Body data) 60 s).2 = Some (Str "hi")
  /\ (Language.source ∘ language) <$> last (messages (chat (onstop (Body data) 60 s).1))
     = Some (Str "en").
Proof.
  intros data s.
  destruct (recognised_text_is_sent_as_typed data "mujhe bukhar hai" 60 s eq_refl)
    as (H & _).
  split; [exact H|]. split; reflexivity.
Defined.

End VoiceUpload.

(** ** AudioControls over arbitrary runs *)

Section PlayerRuns.
Import Player.

Lemma player_step_inv (c : Controls) (e : Event) :
  el_playbackRate c = playbackSpeed c /\ el_volume c = volume c
  /\ (el_playing c = true -> isPlaying c = true)
  /\ (animating c = true -> isPlaying c = true) ->
  el_playbackRate (step c e) = playbackSpeed (step c e)
  /\ el_volume (step c e) = volume (step c e)
  /\ (el_playing (step c e) = true -> isPlaying (step c e) = true)
  /\ (animating (step c e) = true -> isPlaying (step c e) = true).
Proof.
  intros (Hr & Hv & Hp & Ha).
  destruct e as [r | q | q | q | | d | q]; simpl.
  - repeat split; try done; destruct (isPlaying c); simpl; try done.
  - unfold handleSpeedChange.
    destruct (Qeq_bool q (playbackSpeed c)); simpl; repeat split; auto;
      intros; congruence.
  - unfold handleVolumeChange.
    destruct (Qeq_bool q (volume c)); simpl; repeat split; auto;
      intros; congruence.
  - repeat split; auto.
  - destruct (el_playing c) eqn:E; simpl; repeat split; auto;
      intros; congruence.
  - repeat split; auto.
  - destruct (animating c) eqn:E; simpl; repeat split; auto;
      intros; congruence.
Qed.

(** X19. Whatever the user does with one AudioControls, its element always
    has the playback rate and the volume of the component's state, and it
    never plays, nor is a progress frame scheduled, while [isPlaying] is
    off. *)
Theorem player_element_follows_state (es : list Event) :
  let c := run mount es in
  el_playbackRate c = playbackSpeed c
  /\ el_volume c = volume c
  /\ (el_playing c = true -> isPlaying c = true)
  /\ (animating c = true -> isPlaying c = true).
Proof.
  assert (forall es c,
    (el_playbackRate c = playbackSpeed c /\ el_volume c = volume c
     /\ (el_playing c = true -> isPlaying c = true)
     /\ (animating c = true -> isPlaying c = true)) ->
    el_playbackRate (run c es) = playbackSpeed (run c es)
    /\ el_volume (run c es) = volume (run c es)
    /\ (el_playing (run c es) = true -> isPlaying (run c es) = true)
    /\ (animating (run c es) = true -> isPlaying (run c es) = true)) as Hrun.
  { clear es. induction es as [|e es IH]; intros c Hc; simpl; [done|].
    apply IH. by apply player_step_inv. }
  apply Hrun. repeat split; done.
Qed.

(** X20. As long as the speed and the volume are left alone and the platform
    starts every playback asked for, [isPlaying] says exactly whether the
    element plays, and a progress frame is scheduled exactly then. *)
Theorem player_flag_tracks_element (es : list Event) :
  Forall (fun e => keeps_effect e = true) es ->
  isPlaying (run mount es) = el_playing (run mount es)
  /\ animating (run mount es) = el_playing (run mount es).
Proof.
  assert (forall es c,
    Forall (fun e => keeps_effect e = true) es ->
    isPlaying c = el_playing c /\ animating c = el_playing c ->
    isPlaying (run c es) = el_playing (run c es)
    /\ animating (run c es) = el_playing (run c es)) as Hrun.
  { clear es. intros es c Hes. revert c.
    induction Hes as [|e es He _ IH]; intros c [Hp Ha]; simpl; [done|].
    apply IH. destruct e as [r | q | q | q | | d | q]; simpl in *; try done.
    - subst r. by destruct (isPlaying c).
    - destruct (el_playing c) eqn:E; simpl; [done|]. by rewrite E.
    - destruct (animating c) eqn:E; simpl; rewrite ?E; done. }
  intros Hes. by apply Hrun.
Qed.

Lemma player_flag_tracks_element_witness :
  let es := [LoadedMetadata 12; PlayPause true; Frame 3; TimeChange 5;
             PlayPause true; PlayPause true; Ended] in
  isPlaying (run mount es) = el_playing (run mount es)
  /\ animating (run mount es) = el_playing (run mount es).
Proof.
  apply (player_flag_tracks_element
           [LoadedMetadata 12; PlayPause true; Frame 3; TimeChange 5;
            PlayPause true; PlayPause true; Ended]).
  by repeat constructor.
Defined.

(** X21. Choosing another speed, or moving the volume, while the element
    plays pauses it and cancels the progress frame, but leaves [isPlaying]
    on; the next click on the button then only switches [isPlaying] off, and
    the element stays silent until a second click. *)
Theorem speed_change_pauses_playback (speed : Q) (c : Controls) (r : bool) :
  Qeq_bool speed (playbackSpeed c) = false ->
  let c' := handleSpeedChange speed c in
  el_playing c' = false
  /\ animating c' = false
  /\ isPlaying c' = isPlaying c
  /\ el_playbackRate c' = speed
  /\ (isPlaying c = true ->
      el_playing (handlePlayPause r c') = false
      /\ isPlaying (handlePlayPause r c') = false)
  /\ forall v, Qeq_bool v (volume c) = false ->
               el_playing (handleVolumeChange v c) = false
               /\ isPlaying (handleVolumeChange v c) = isPlaying c.
Proof.
  intros Hs. unfold handleSpeedChange, handleVolumeChange. rewrite Hs. simpl.
  split; [done|]. split; [done|]. split; [done|]. split; [done|]. split.
  - intros Hp. by rewrite Hp.
  - intros v Hv. by rewrite Hv.
Qed.

Lemma speed_change_pauses_playback_witness :
  let c := run mount [PlayPause true] in
  let c' := handleSpeedChange 1.5 c in
  el_playing c = true
  /\ el_playing c' = false
  /\ isPlaying c' = true
  /\ el_playing (handlePlayPause true c') = false.
Proof.
  intros c c'.
  destruct (speed_change_pauses_playback 1.5 c true eq_refl)
    as (H1 & _ & H3 & _ & H5 & _).
  split; [reflexivity|]. split; [exact H1|]. split; [exact H3|].
  exact (proj1 (H5 eq_refl)).
Defined.

End PlayerRuns.

(** ** The API helpers, the consultation slice and the page *)

Section ApiAndSlice.
Import JS Requests Consultation.




(** X24. Starting a consultation, from the server's answer on: the thunk's
    action never makes the reducer fail, loading is over afterwards, and the
    slice either has a truthy consultation id, user details and language
    preferences with status [succeeded], or keeps its old id and details
    with a truthy error and status [failed]. *)
Theorem start_consultation_outcome
    (userData response : value) (nowIso : string) (s0 : State) :
  exists s1 s2,
    reducer s0 startPending = Some s1
    /\ reducer s1 (startConsultation userData response nowIso) = Some s2
    /\ loading s2 = false
    /\ ((status s2 = "succeeded"
         /\ truthy (consultationId s2) = true
         /\ truthy (userDetails s2) = true
         /\ truthy (languagePreferences s2) = true
         /\ error s2 = Null)
        \/ (status s2 = "failed"
            /\ truthy (error s2) = true
            /\ consultationId s2 = consultationId s0
            /\ userDetails s2 = userDetails s0)).
Proof.
  eexists. simpl. unfold startConsultation, Requests.startConsultation.
  set (data := get_opt "data" response).
  destruct (truthy (get_opt "consultation_id" data)) eqn:Hid; simpl;
    [|eexists; repeat split; right; by repeat split].
  destruct (truthy (get_opt "user_details" data)) eqn:Hud; simpl;
    [|eexists; repeat split; right; by repeat split].
  destruct (truthy (get_opt "language_preferences" data)) eqn:Hlp.
  - eexists. split; [reflexivity|]. split; [reflexivity|]. split; [done|].
    left. simpl. by repeat split.
  - destruct (get "preferred" (get_opt "language_preferences" userData)) as [p|].
    + eexists. split; [reflexivity|]. split; [reflexivity|]. split; [done|].
      left. simpl. by repeat split.
    + eexists. repeat split. right. by repeat split.
Qed.

(** One status request, from its end on. *)
Lemma statusAction_cases (a : Answer) :
  (usable a = true
   /\ exists response, a = Answered response
        /\ nullish (get_opt "data" response) = false
        /\ statusAction a = statusFulfilled (get_opt "data" response))
  \/ (usable a = false
      /\ statusAction a = statusRejected (rejection a)
      /\ truthy (rejection a) = true).
Proof.
  destruct a as [response | message]; simpl.
  - unfold getConsultationStatus, Requests.getConsultationStatus.
    destruct (truthy (get_opt "data" response)) eqn:Hd.
    + left. split; [done|]. exists response. split; [done|].
      split; [|done]. by destruct (get_opt "data" response).
    + right. by repeat split.
  - right. split; [done|]. unfold or. simpl.
    destruct (String.eqb message "") eqn:He; simpl; [done|].
    by rewrite He.
Qed.

(** X25. Mounting ConsultationPage starts the status thunk twice; the two
    requests end in some order, each with an answer of the server or with an
    error.  The reducer never fails; afterwards the page does not show the
    spinner and the consultation id is untouched.  Only when both requests
    ended with a truthy body does the page show the chat (exactly when the
    later body has truthy [user_details], the "no data" warning otherwise).
    When the later request failed the page shows its error; when only the
    earlier one failed the page still shows that error, although the later
    request succeeded. *)
Theorem status_load_outcome (first second : Answer) (s0 : State) :
  exists s,
    reduce s0 (page_mount first second) = Some s
    /\ loading s = false
    /\ render s <> Spinner
    /\ consultationId s = consultationId s0
    /\ (usable first = true -> usable second = true ->
        forall response, second = Answered response ->
        error s = Null
        /\ render s
           = if truthy (get_opt "user_details" (get_opt "data" response))
             then Page else NoData)
    /\ (usable second = false -> render s = ErrorAlert (rejection second))
    /\ (usable first = false -> usable second = true ->
        render s = ErrorAlert (rejection first)).
Proof.
  unfold page_mount.
  destruct (statusAction_cases first)
    as [(U1 & r1 & -> & N1 & A1) | (U1 & A1 & T1)];
  destruct (statusAction_cases second)
    as [(U2 & r2 & -> & N2 & A2) | (U2 & A2 & T2)];
  rewrite ?A1, ?A2; simpl;
    rewrite ?(get_not_nullish _ _ N1); simpl;
    rewrite ?(get_not_nullish _ _ N2); simpl;
    eexists; (split; [reflexivity|]); unfold render, or; simpl;
    rewrite ?T1, ?T2; simpl; rewrite ?T1, ?T2; simpl in U1, U2 |- *;
    rewrite ?U1, ?U2.
  - split; [done|]. split.
    + by destruct (truthy (get_opt "user_details" (get_opt "data" r2))).
    + split; [done|]. split; [|split; intros; congruence].
      intros _ _ response [= <-]. split; [done|].
      by destruct (truthy (get_opt "user_details" (get_opt "data" r2))).
  - split; [done|]. split; [done|]. split; [done|].
    split; [intros; congruence|]. split; [done | intros; congruence].
  - split; [done|]. split; [done|]. split; [done|].
    split; [intros; congruence|]. split; [intros; congruence | done].
  - split; [done|]. split; [done|]. split; [done|].
    split; [intros; congruence|]. split; [done | intros; congruence].
Qed.

(** The page of a consultation whose first status request timed out and
    whose second one was answered shows the time-out. *)
Example first_failure_stays_on_screen :
  exists s,
    reduce initialState
      (page_mount (RequestFailed "timeout of 15000ms exceeded")
                  (Answered (Obj (<["data" := Scenario.status_body]> ∅))))
    = Some s
    /\ truthy (userDetails s) = true
    /\ render s = ErrorAlert (Str "timeout of 15000ms exceeded").
Proof. eexists. repeat split. Qed.

End ApiAndSlice.
